(** * A shallow embedding of [src/converter.js] (Day One to Obsidian converter)

    The class [DayOneToObsidian] is modelled as an explicit state record
    ([photoMap], [usedFilenames], [seenEntries], [skippedDuplicates] and the
    [allowDuplicates] option) threaded through functions that return in a
    small exception monad [res], mirroring the JavaScript exceptions that
    abort [convert].

    Modelling conventions.
    - JavaScript strings are modelled as Stdlib [string]s of 8-bit code
      units ([ascii]); [charCodeAt] is [nat_of_ascii].  Characters outside
      0..255 (for instance U+200B) are not representable.
    - [\s] and [String.prototype.trim] whitespace restricted to these code
      units: 9, 10, 11, 12, 13, 32 and 160; line terminators are 10 and 13.
    - JSON fields are [option]s; JavaScript truthiness is written out
      ([""], [0] and absent values are falsy).
    - JSON numbers are rationals [Q]; pixel dimensions and step counts [Z].
    - The YAML text produced by js-yaml is not modelled: an entry file is the
      frontmatter record plus the converted body.  What is kept of js-yaml is
      that [dump] throws on a function value. *)

From stdpp Require Import base gmap strings list.
From Stdlib Require Import String Ascii ZArith QArith Qround.
Open Scope string_scope.
Close Scope Q_scope.

(* ------------------------------------------------------------------ *)
(** ** JavaScript exceptions *)

Inductive exn :=
| TypeError
| RangeError
| SyntaxError
| YAMLException
| Error (msg : string).

Inductive res (A : Type) :=
| Ok (a : A)
| Throw (e : exn).
Arguments Ok {A} a.
Arguments Throw {A} e.

Global Instance res_ret : MRet res := fun A a => Ok a.
Global Instance res_bind : MBind res := fun A B f m =>
  match m with Ok a => f a | Throw e => Throw e end.

Definition is_ok {A} (r : res A) : bool :=
  match r with Ok _ => true | Throw _ => false end.

(* ------------------------------------------------------------------ *)
(** ** Characters and string helpers *)

Definition code (c : ascii) : nat := nat_of_ascii c.

(** [\s] of JavaScript regular expressions (and the characters [trim]
    removes), restricted to 8-bit code units. *)
Definition is_ws (c : ascii) : bool :=
  match code c with
  | 9 | 10 | 11 | 12 | 13 | 32 | 160 => true
  | _ => false
  end%nat.

(** Line terminators ([.] does not match them; [^]/[$] with the [m] flag
    match next to them). *)
Definition is_line_term (c : ascii) : bool :=
  match code c with 10 | 13 => true | _ => false end%nat.

Definition backslash : ascii := ascii_of_nat 92.
Definition newline : ascii := ascii_of_nat 10.

Fixpoint trim_start (s : string) : string :=
  match s with
  | EmptyString => EmptyString
  | String c r => if is_ws c then trim_start r else s
  end.

Fixpoint trim_end (s : string) : string :=
  match s with
  | EmptyString => EmptyString
  | String c r =>
      let r' := trim_end r in
      if is_ws c && String.eqb r' EmptyString then EmptyString else String c r'
  end.

(** [s.trim()] *)
Definition trim (s : string) : string := trim_end (trim_start s).

(** [s.slice(0, n)] *)
Definition slice0 (n : nat) (s : string) : string := substring 0 n s.

(** [s.startsWith(p)] *)
Fixpoint starts_with (p s : string) : bool :=
  match p, s with
  | EmptyString, _ => true
  | String a p', String b s' => Ascii.eqb a b && starts_with p' s'
  | String _ _, EmptyString => false
  end.

(** The rest of [s] after the literal prefix [p], if [s] starts with it. *)
Fixpoint strip_prefix (p s : string) : option string :=
  match p, s with
  | EmptyString, _ => Some s
  | String a p', String b s' => if Ascii.eqb a b then strip_prefix p' s' else None
  | String _ _, EmptyString => None
  end.

(** [s.includes(p)] *)
Fixpoint includes (p s : string) : bool :=
  starts_with p s ||
  match s with
  | EmptyString => false
  | String _ s' => includes p s'
  end.

(** [s.endsWith(p)] *)
Definition ends_with (p s : string) : bool :=
  let n := String.length s in
  let m := String.length p in
  (m <=? n)%nat && String.eqb (substring (n - m) m s) p.

(** [s.split(sep)] for a one-character separator. *)
Fixpoint split_on (sep : ascii) (s : string) : list string :=
  match s with
  | EmptyString => [EmptyString]
  | String c r =>
      if Ascii.eqb c sep then EmptyString :: split_on sep r
      else match split_on sep r with
           | [] => [String c EmptyString]
           | l :: ls => String c l :: ls
           end
  end.

(** [s.split('/').pop()] *)
Definition last_segment (s : string) : string :=
  List.last (split_on "/"%char s) EmptyString.

(* ------------------------------------------------------------------ *)
(** ** [hashString]: a 32-bit rolling hash rendered with [toString(16)] *)

(** ToInt32 *)
Definition to_int32 (z : Z) : Z :=
  let m := (z mod 2 ^ 32)%Z in
  if (2 ^ 31 <=? m)%Z then (m - 2 ^ 32)%Z else m.

Fixpoint hash_loop (hash : Z) (s : string) : Z :=
  match s with
  | EmptyString => hash
  | String ch r =>
      let char := Z.of_nat (code ch) in
      (* hash = ((hash << 5) - hash) + char *)
      let h1 := (to_int32 (Z.shiftl hash 5) - hash + char)%Z in
      (* hash = hash & hash  (Convert to 32bit integer) *)
      let h2 := Z.land (to_int32 h1) (to_int32 h1) in
      hash_loop h2 r
  end.

Definition hex_char (d : Z) : ascii :=
  ascii_of_nat (if (d <? 10)%Z then 48 + Z.to_nat d else 87 + Z.to_nat d)%nat.

(** Hexadecimal digits of a non-negative number, prepended to [acc]. *)
Fixpoint hex_digits (fuel : nat) (n : Z) (acc : string) : string :=
  match fuel with
  | O => acc
  | S f =>
      let acc' := String (hex_char (n mod 16)%Z) acc in
      if (n <? 16)%Z then acc' else hex_digits f (n / 16)%Z acc'
  end.

(** [Number.prototype.toString(16)] on a 32-bit integer. *)
Definition to_hex_string (z : Z) : string :=
  if (z <? 0)%Z then "-" ++ hex_digits 16 (- z)%Z "" else hex_digits 16 z "".

Definition hashString (str : string) : string :=
  to_hex_string (hash_loop 0 str).

(* ------------------------------------------------------------------ *)
(** ** Input records (the JSON of a Day One export) *)

Record attachment := {
  identifier : string;
  md5 : string;
  type : option string;
  cameraMake : option string;
  cameraModel : option string;
  lensModel : option string;
  date : option string;
  width : option Z;
  height : option Z
}.

Record location := {
  placeName : option string;
  localityName : option string;
  administrativeArea : option string;
  country : option string;
  latitude : option Q;
  longitude : option Q
}.

Record weather := {
  conditionsDescription : option string;
  temperatureCelsius : option Q;
  relativeHumidity : option Q;
  pressureMB : option Q;
  windSpeedKPH : option Q;
  windBearing : option Q;
  visibilityKM : option Q;
  moonPhaseCode : option string
}.

Record activity := {
  activityName : option string;
  stepCount : option Z
}.

Record entry := {
  uuid : option string;
  text : option string;
  creationDate : option string;
  modifiedDate : option string;
  timeZone : option string;
  starred : option bool;
  isPinned : option bool;
  isAllDay : option bool;
  tags : option (list string);
  entry_location : option location;
  entry_weather : option weather;
  userActivity : option activity;
  creationDevice : option string;
  creationDeviceType : option string;
  creationDeviceModel : option string;
  creationOSName : option string;
  creationOSVersion : option string;
  photos : option (list attachment);
  videos : option (list attachment);
  audios : option (list attachment);
  pdfAttachments : option (list attachment);
  editingTime : option Q
}.

(** JavaScript truthiness of the optional fields. *)
Definition str_truthy (o : option string) : bool :=
  match o with Some s => negb (String.eqb s "") | None => false end.
Definition q_truthy (o : option Q) : bool :=
  match o with Some q => negb (Qeq_bool q 0) | None => false end.
Definition z_truthy (o : option Z) : bool :=
  match o with Some z => negb (Z.eqb z 0) | None => false end.
Definition bool_truthy (o : option bool) : bool :=
  match o with Some b => b | None => false end.

(** [s || d] on an optional string. *)
Definition str_or (o : option string) (d : string) : string :=
  match o with Some s => if String.eqb s "" then d else s | None => d end.

(** [o && o > 0] on an optional number. *)
Definition q_pos (o : option Q) : bool :=
  match o with Some q => negb (Qeq_bool q 0) && negb (Qle_bool q 0) | None => false end.

(** [entry.text || ''] *)
Definition text_or_empty (e : entry) : string := str_or (text e) "".

(* ------------------------------------------------------------------ *)
(** ** Converter state (the fields of [DayOneToObsidian]) *)

(** A [photoMap] value: [{ md5, type }]. *)
Record media := { media_md5 : string; media_type : string }.

Record state := {
  allowDuplicates : bool;
  photoMap : gmap string media;
  usedFilenames : gset string;
  seenEntries : gmap string string;
  skippedDuplicates : nat
}.

(** [new DayOneToObsidian({ allowDuplicates })] *)
Definition new_converter (allow : bool) : state :=
  {| allowDuplicates := allow; photoMap := ∅; usedFilenames := ∅;
     seenEntries := ∅; skippedDuplicates := 0 |}.

Definition set_photoMap (st : state) (m : gmap string media) : state :=
  {| allowDuplicates := allowDuplicates st; photoMap := m;
     usedFilenames := usedFilenames st; seenEntries := seenEntries st;
     skippedDuplicates := skippedDuplicates st |}.
Definition set_usedFilenames (st : state) (u : gset string) : state :=
  {| allowDuplicates := allowDuplicates st; photoMap := photoMap st;
     usedFilenames := u; seenEntries := seenEntries st;
     skippedDuplicates := skippedDuplicates st |}.
Definition set_seenEntries (st : state) (m : gmap string string) : state :=
  {| allowDuplicates := allowDuplicates st; photoMap := photoMap st;
     usedFilenames := usedFilenames st; seenEntries := m;
     skippedDuplicates := skippedDuplicates st |}.
Definition incr_skipped (st : state) : state :=
  {| allowDuplicates := allowDuplicates st; photoMap := photoMap st;
     usedFilenames := usedFilenames st; seenEntries := seenEntries st;
     skippedDuplicates := S (skippedDuplicates st) |}.

(* ------------------------------------------------------------------ *)
(** ** Deduplication: [shouldSkipDuplicate] and [recordEntry] *)

Definition shouldSkipDuplicate (st : state) (e : entry) : bool :=
  if allowDuplicates st then false
  else if negb (str_truthy (uuid e)) then false
  else
    let uuid := str_or (uuid e) "" in
    let contentHash := hashString (text_or_empty e) in
    match seenEntries st !! uuid with
    | Some h => String.eqb h contentHash
    | None => false
    end.

Definition recordEntry (st : state) (e : entry) : state :=
  if negb (str_truthy (uuid e)) then st
  else
    let uuid := str_or (uuid e) "" in
    let contentHash := hashString (text_or_empty e) in
    set_seenEntries st (<[uuid := contentHash]> (seenEntries st)).

(* ------------------------------------------------------------------ *)
(** ** [buildPhotoMap] *)

Definition register_all (default_type : option string -> string)
    (l : list attachment) (m : gmap string media) : gmap string media :=
  fold_left (fun m a =>
    <[identifier a := {| media_md5 := md5 a; media_type := default_type (type a) |}]> m)
    l m.

Definition opt_list {A} (o : option (list A)) : list A :=
  match o with Some l => l | None => [] end.

Definition buildPhotoMap (st : state) (e : entry) : state :=
  let m := photoMap st in
  let m := register_all (fun t => str_or t "jpeg") (opt_list (photos e)) m in
  let m := register_all (fun t => str_or t "mov") (opt_list (videos e)) m in
  let m := register_all (fun t => str_or t "m4a") (opt_list (audios e)) m in
  let m := register_all (fun _ => "pdf") (opt_list (pdfAttachments e)) m in
  set_photoMap st m.

(* ------------------------------------------------------------------ *)
(** ** [unescapeDayoneMarkdown] *)

(** [text.replace(/\\c/g, 'c')]: every backslash followed by [c] loses its
    backslash, scanning left to right without overlap. *)
Fixpoint unescape_char (c : ascii) (s : string) : string :=
  match s with
  | String a ((String b r) as s') =>
      if Ascii.eqb a backslash && Ascii.eqb b c
      then String c (unescape_char c r)
      else String a (unescape_char c s')
  | _ => s
  end.

(** The characters, in the order of the thirteen [replace] calls. *)
Definition escaped_marks : list ascii :=
  [ "."; "-"; "("; ")"; "["; "]"; "#"; ">"; "_"; "*"; "`"; "~"; "!" ]%char.

Definition unescapeDayoneMarkdown (text : string) : string :=
  fold_left (fun t c => unescape_char c t) escaped_marks text.

(* ------------------------------------------------------------------ *)
(** ** [convertImageReferences]:
    [/!\[\]\(dayone-moment:\/\/([A-F0-9]+)\)/g] *)

Definition moment_prefix : string := "![](dayone-moment://".

Definition is_upper_hex (c : ascii) : bool :=
  let n := code c in (Nat.leb 48 n && Nat.leb n 57) || (Nat.leb 65 n && Nat.leb n 70).

(** Greedy [[A-F0-9]+]: the longest hex prefix and the rest. *)
Fixpoint hex_run (s : string) : string * string :=
  match s with
  | String c r =>
      if is_upper_hex c then let '(h, rest) := hex_run r in (String c h, rest)
      else (EmptyString, s)
  | EmptyString => (EmptyString, EmptyString)
  end.

(** A match of the pattern at the start of [s]: the captured identifier
    and the text after the closing parenthesis.  Backtracking into the
    greedy run never helps, since a shorter run is followed by a hex digit
    rather than [)]. *)
Definition match_moment (s : string) : option (string * string) :=
  match strip_prefix moment_prefix s with
  | Some after =>
      let '(id, rest) := hex_run after in
      match id, rest with
      | String _ _, String ")" rest' => Some (id, rest')
      | _, _ => None
      end
  | None => None
  end.

(** The replacement callback. *)
Definition moment_replacement (photoMap : gmap string media) (identifier : string)
    : string :=
  match photoMap !! identifier with
  | Some media => "![[" ++ media_md5 media ++ "." ++ media_type media ++ "]]"
  | None => "<!-- Missing media: " ++ identifier ++ " -->"
  end.

(** Global replace, scanning left to right; each step consumes at least
    one character, so [S (length s)] steps suffice. *)
Fixpoint replace_moments (fuel : nat) (m : gmap string media) (s : string)
    : string :=
  match fuel with
  | O => s
  | S f =>
      match match_moment s with
      | Some (id, rest) => moment_replacement m id ++ replace_moments f m rest
      | None =>
          match s with
          | EmptyString => EmptyString
          | String c r => String c (replace_moments f m r)
          end
      end
  end.

Definition convertImageReferences (m : gmap string media) (text : string)
    : string :=
  replace_moments (S (String.length text)) m text.

(** [text.replace(/\u200B/g, '')]: U+200B is not an 8-bit code unit, so
    over the modelled strings the call returns its argument. *)
Definition strip_zero_width_spaces (text : string) : string := text.

Definition convertContent (st : state) (e : entry) : string :=
  let text := text_or_empty e in
  let text := unescapeDayoneMarkdown text in
  let text := convertImageReferences (photoMap st) text in
  strip_zero_width_spaces text.

(* ------------------------------------------------------------------ *)
(** ** [extractTitle] *)

(** [/^#\s+(.+?)(?:\n|\\n|$)/m], after the first character of the capture:
    the lazy [.+?] stops before a newline, before a backslash followed by
    [n], and at [$] (end of input or before a line terminator). *)
Fixpoint lazy_capture (s : string) : string :=
  match s with
  | EmptyString => EmptyString
  | String c r =>
      if is_line_term c then EmptyString
      else if Ascii.eqb c backslash && starts_with "n" r then EmptyString
      else String c (lazy_capture r)
  end.

Fixpoint ws_prefix_len (s : string) : nat :=
  match s with
  | String c r => if is_ws c then S (ws_prefix_len r) else O
  | EmptyString => O
  end.

(** Backtracking over the greedy [\s+]: try [j] whitespace characters,
    from [j] down to 1; the capture needs one character that [.] matches. *)
Fixpoint try_ws (j : nat) (r : string) : option string :=
  match j with
  | O => None
  | S j' =>
      match substring j (String.length r) r with
      | String c r' =>
          if is_line_term c then try_ws j' r
          else Some (String c (lazy_capture r'))
      | EmptyString => try_ws j' r
      end
  end.

(** The pattern tried at one position (after [^] has matched). *)
Definition heading_at (s : string) : option string :=
  match s with
  | String "#" r => try_ws (ws_prefix_len r) r
  | _ => None
  end.

(** [text.match(...)]: the first position where [^] (multiline: start of
    input or after a line terminator) and the rest of the pattern match. *)
Fixpoint find_heading (line_start : bool) (s : string) : option string :=
  match (if line_start then heading_at s else None) with
  | Some t => Some t
  | None =>
      match s with
      | EmptyString => None
      | String c r => find_heading (is_line_term c) r
      end
  end.

(** [.replace(/!\[\]\(dayone-moment:\/\/[^)]+\)/g, '')]: the greedy
    [[^)]+] runs to the first [)], which must not be the first character. *)
Fixpoint upto_paren (s : string) : option (string * string) :=
  match s with
  | EmptyString => None
  | String ")" r => Some (EmptyString, r)
  | String c r =>
      match upto_paren r with
      | Some (a, rest) => Some (String c a, rest)
      | None => None
      end
  end.

Definition match_moment_any (s : string) : option string :=
  match strip_prefix moment_prefix s with
  | Some after =>
      match upto_paren after with
      | Some (String _ _, rest) => Some rest
      | _ => None
      end
  | None => None
  end.

Fixpoint remove_moments (fuel : nat) (s : string) : string :=
  match fuel with
  | O => s
  | S f =>
      match match_moment_any s with
      | Some rest => remove_moments f rest
      | None =>
          match s with
          | EmptyString => EmptyString
          | String c r => String c (remove_moments f r)
          end
      end
  end.

(** [.replace(/^#+\s*/, '')] *)
Fixpoint drop_hashes (s : string) : string :=
  match s with
  | String "#" r => drop_hashes r
  | _ => s
  end.

Definition strip_heading_marker (s : string) : string :=
  match s with
  | String "#" r => trim_start (drop_hashes r)
  | _ => s
  end.

(** [lines.find(l => l.trim().length > 0)] *)
Definition first_nonblank_line (lines : list string) : option string :=
  List.find (fun l => negb (String.eqb (trim l) "")) lines.

(** [extractTitle(text)]; [None] is [null]. *)
Definition extractTitle (text : option string) : option string :=
  if negb (str_truthy text) then None
  else
    let text := str_or text "" in
    match find_heading true text with
    | Some heading => Some (trim (unescapeDayoneMarkdown heading))
    | None =>
        match first_nonblank_line (split_on newline text) with
        | None => None
        | Some firstLine =>
            let title :=
              trim (strip_heading_marker
                      (remove_moments (S (String.length firstLine)) firstLine)) in
            if String.eqb title "" then None
            else Some (slice0 50 (unescapeDayoneMarkdown title))
        end
    end.

(* ------------------------------------------------------------------ *)
(** ** Title sanitising in [generateFilename] *)

(** The character class of [generateFilename]: slash, backslash, colon,
    asterisk, question mark, double quote, less-than, greater-than and
    vertical bar. *)
Definition is_hostile (c : ascii) : bool :=
  match code c with
  | 47 | 92 | 58 | 42 | 63 | 34 | 60 | 62 | 124 => true
  | _ => false
  end%nat.

(** The first [replace] of the title: each such character becomes [-]. *)
Fixpoint replace_hostile (s : string) : string :=
  match s with
  | EmptyString => EmptyString
  | String c r => String (if is_hostile c then "-"%char else c) (replace_hostile r)
  end.

(** [.replace(/\s+/g, ' ')]: each maximal whitespace run becomes one space. *)
Fixpoint collapse_ws_go (in_run : bool) (s : string) : string :=
  match s with
  | EmptyString => EmptyString
  | String c r =>
      if is_ws c then
        if in_run then collapse_ws_go true r else String " " (collapse_ws_go true r)
      else String c (collapse_ws_go false r)
  end.

Definition collapse_ws (s : string) : string := collapse_ws_go false s.

Definition sanitize_title (title : string) : string :=
  slice0 50 (trim (collapse_ws (replace_hostile title))).

(* ------------------------------------------------------------------ *)
(** ** [new Date(s)] and [toISOString()] *)

Definition digit_val (c : ascii) : option Z :=
  let n := code c in
  if Nat.leb 48 n && Nat.leb n 57 then Some (Z.of_nat (n - 48)) else None.

Fixpoint parse_digits_acc (acc : Z) (s : string) : option Z :=
  match s with
  | EmptyString => Some acc
  | String c r =>
      match digit_val c with
      | Some d => parse_digits_acc (acc * 10 + d)%Z r
      | None => None
      end
  end.

(** A field of [n] decimal digits at offset [i]. *)
Definition digits_at (i n : nat) (s : string) : option Z :=
  parse_digits_acc 0 (substring i n s).

Definition char_at_is (i : nat) (c : ascii) (s : string) : bool :=
  match String.get i s with Some d => Ascii.eqb c d | None => false end.

Definition is_leap (y : Z) : bool :=
  (Z.eqb (y mod 4) 0 && negb (Z.eqb (y mod 100) 0)) || Z.eqb (y mod 400) 0.

Definition days_in_month (y m : Z) : Z :=
  match m with
  | 2 => if is_leap y then 29 else 28
  | 4 | 6 | 9 | 11 => 30
  | _ => 31
  end%Z.

(** Days since 1970-01-01 of a proleptic Gregorian date. *)
Definition days_from_civil (y m d : Z) : Z :=
  let y := if (m <=? 2)%Z then (y - 1)%Z else y in
  let era := (y / 400)%Z in
  let yoe := (y - era * 400)%Z in
  let mp := (if (2 <? m)%Z then m - 3 else m + 9)%Z in
  let doy := ((153 * mp + 2) / 5 + d - 1)%Z in
  let doe := (yoe * 365 + yoe / 4 - yoe / 100 + doy)%Z in
  (era * 146097 + doe - 719468)%Z.

(** The civil date of a day number (inverse of [days_from_civil]). *)
Definition civil_from_days (z : Z) : Z * Z * Z :=
  let z := (z + 719468)%Z in
  let era := (z / 146097)%Z in
  let doe := (z - era * 146097)%Z in
  let yoe := ((doe - doe / 1460 + doe / 36524 - doe / 146096) / 365)%Z in
  let y := (yoe + era * 400)%Z in
  let doy := (doe - (365 * yoe + yoe / 4 - yoe / 100))%Z in
  let mp := ((5 * doy + 2) / 153)%Z in
  let d := (doy - (153 * mp + 2) / 5 + 1)%Z in
  let m := (if (mp <? 10)%Z then mp + 3 else mp - 9)%Z in
  ((if (m <=? 2)%Z then y + 1 else y)%Z, m, d).

(** [Date.parse] of the JavaScript engine: the time value in milliseconds
    of a string, [None] for NaN.  What it accepts beyond the Date Time
    String Format of the ECMAScript specification is implementation
    defined, and strings without an offset are read in the local time zone
    of the host; the conversion is therefore modelled over any engine, and
    statements about it quantify over every instance. *)
Class DateParse := date_parse : string -> option Z.

(** [Date.parse] on the strings of the form [YYYY-MM-DDTHH:mm:ssZ] (a
    valid UTC date-time of the Date Time String Format, whose time value the
    ECMAScript specification fixes); [None] for every other string.  Engines
    accept more (date-only, milliseconds, offsets, day overflow); this one
    serves for the sample evaluations. *)
Definition parse_iso_utc (s : string) : option Z :=
  if negb (Nat.eqb (String.length s) 20) then None else
  if negb (char_at_is 4 "-" s && char_at_is 7 "-" s && char_at_is 10 "T" s
           && char_at_is 13 ":" s && char_at_is 16 ":" s && char_at_is 19 "Z" s)
  then None else
  match digits_at 0 4 s, digits_at 5 2 s, digits_at 8 2 s,
        digits_at 11 2 s, digits_at 14 2 s, digits_at 17 2 s with
  | Some y, Some mo, Some d, Some h, Some mi, Some sec =>
      if (1 <=? mo)%Z && (mo <=? 12)%Z && (1 <=? d)%Z
         && (d <=? days_in_month y mo)%Z
         && (h <=? 23)%Z && (mi <=? 59)%Z && (sec <=? 59)%Z
      then Some (days_from_civil y mo d * 86400000
                 + h * 3600000 + mi * 60000 + sec * 1000)%Z
      else None
  | _, _, _, _, _, _ => None
  end.

(** [TimeClip]: a time value more than 8.64e15 ms from the epoch is NaN. *)
Definition time_clip (t : option Z) : option Z :=
  match t with
  | Some t => if (Z.abs t <=? 8640000000000000)%Z then Some t else None
  | None => None
  end.

(** [new Date(entry.creationDate)]: the time value, [None] for an Invalid
    Date.  An absent [creationDate] is [new Date(undefined)], an Invalid
    Date; a string goes through [Date.parse] and [TimeClip]. *)
Definition new_Date `{DP : DateParse} (s : option string) : option Z :=
  match s with
  | None => None
  | Some s => time_clip (date_parse s)
  end.

(** The last [width] decimal digits of [n >= 0], zero padded. *)
Fixpoint pad_dec (width : nat) (n : Z) (acc : string) : string :=
  match width with
  | O => acc
  | S w => pad_dec w (n / 10)%Z (String (ascii_of_nat (48 + Z.to_nat (n mod 10)%Z)) acc)
  end.

(** The year of [toISOString]: four digits, or a sign and six digits. *)
Definition iso_year (y : Z) : string :=
  if (0 <=? y)%Z && (y <=? 9999)%Z then pad_dec 4 y ""
  else (if (y <? 0)%Z then "-" else "+") ++ pad_dec 6 (Z.abs y) "".

(** [date.toISOString().split('T')[0]]; [toISOString] throws a RangeError
    on an Invalid Date. *)
Definition iso_date_part (t : option Z) : res string :=
  match t with
  | None => Throw RangeError
  | Some t =>
      let '(y, m, d) := civil_from_days (t / 86400000)%Z in
      Ok (iso_year y ++ "-" ++ pad_dec 2 m "" ++ "-" ++ pad_dec 2 d "")
  end.

(* ------------------------------------------------------------------ *)
(** ** [generateFilename] *)

(** [entry.uuid.slice(0, 8)]: a TypeError when [uuid] is absent. *)
Definition uuid_prefix (e : entry) : res string :=
  match uuid e with
  | Some u => Ok (slice0 8 u)
  | None => Throw TypeError
  end.

Definition generateFilename `{DP : DateParse} (st : state) (e : entry) : res (string * state) :=
  dateStr ← iso_date_part (new_Date (creationDate e));
  let title := extractTitle (text e) in
  baseFilename ←
    match title with
    | Some t =>
        if negb (String.eqb t "") then Ok (dateStr ++ " " ++ sanitize_title t)
        else p ← uuid_prefix e; Ok (dateStr ++ " " ++ p)
    | None => p ← uuid_prefix e; Ok (dateStr ++ " " ++ p)
    end;
  filename ←
    (let filename := baseFilename ++ ".md" in
     if decide (filename ∈ usedFilenames st)
     then p ← uuid_prefix e; Ok (baseFilename ++ " (" ++ p ++ ").md")
     else Ok filename);
  Ok (filename, set_usedFilenames st ({[ filename ]} ∪ usedFilenames st)).

(* ------------------------------------------------------------------ *)
(** ** [buildFrontmatter] *)

(** Property lookup [MOON_PHASES[k]] on a plain object literal: its own
    properties, then those of [Object.prototype]. *)
Inductive js_prop :=
| PStr (s : string)          (* an own string property *)
| PFun (name : string)       (* a method inherited from Object.prototype *)
| PProto.                    (* [__proto__]: Object.prototype itself *)

Definition MOON_PHASES : list (string * string) :=
  [ ("new", "New Moon"); ("waxing-crescent", "Waxing Crescent");
    ("first-quarter", "First Quarter"); ("waxing-gibbous", "Waxing Gibbous");
    ("full", "Full Moon"); ("waning-gibbous", "Waning Gibbous");
    ("last-quarter", "Last Quarter"); ("waning-crescent", "Waning Crescent") ].

Definition object_prototype_methods : list string :=
  [ "constructor"; "__defineGetter__"; "__defineSetter__"; "hasOwnProperty";
    "__lookupGetter__"; "__lookupSetter__"; "isPrototypeOf";
    "propertyIsEnumerable"; "toString"; "valueOf"; "toLocaleString" ].

Fixpoint assoc_str (k : string) (l : list (string * string)) : option string :=
  match l with
  | [] => None
  | (k', v) :: l' => if String.eqb k k' then Some v else assoc_str k l'
  end.

Definition get_prop (table : list (string * string)) (k : string) : option js_prop :=
  match assoc_str k table with
  | Some v => Some (PStr v)
  | None =>
      if String.eqb k "__proto__" then Some PProto
      else if existsb (String.eqb k) object_prototype_methods then Some (PFun k)
      else None
  end.

(** Truthiness of a looked-up value: the labels are non-empty strings,
    functions and objects are truthy. *)
Definition prop_truthy (p : option js_prop) : bool :=
  match p with
  | Some (PStr s) => negb (String.eqb s "")
  | Some _ => true
  | None => false
  end.

Record fm_location := {
  l_name : option string; l_locality : option string; l_region : option string;
  l_country : option string; l_latitude : option Q; l_longitude : option Q }.

Record fm_weather := {
  w_conditions : option string;
  w_temperature_c : option Q;
  w_humidity : option Q;
  w_pressure_mb : option Q;
  w_wind_speed_kph : option Q;
  w_wind_bearing : option Q;
  w_visibility_km : option Q;
  w_moon_phase : option js_prop }.

Record fm_activity := { a_type : option string; a_steps : option Z }.

Record fm_device := {
  d_name : option string; d_type : option string; d_model : option string;
  d_os : option string; d_os_version : option string }.

Record photo_meta := {
  p_file : string; p_identifier : string; p_camera : option string;
  p_lens : option string; p_date : option string; p_dimensions : option string }.

Record frontmatter := {
  fm_uuid : option string;
  fm_created : option string;
  fm_modified : option string;
  fm_timezone : option string;
  fm_starred : option bool;
  fm_pinned : option bool;
  fm_all_day : option bool;
  fm_tags : option (list string);
  fm_location_ : option fm_location;
  fm_weather_ : option fm_weather;
  fm_activity_ : option fm_activity;
  fm_device_ : option fm_device;
  fm_photos : option (list photo_meta);
  fm_editing_time_seconds : option Z }.

(** [if (x) obj.k = x]: keep a field only when truthy. *)
Definition keep_str (o : option string) : option string :=
  if str_truthy o then o else None.
Definition keep_q (o : option Q) : option Q := if q_truthy o then o else None.
Definition keep_z (o : option Z) : option Z := if z_truthy o then o else None.
Definition keep_bool (o : option bool) : option bool :=
  if bool_truthy o then o else None.
Definition keep_q_pos (o : option Q) : option Q := if q_pos o then o else None.

Definition is_word_or_hyphen (c : ascii) : bool :=
  let n := code c in
  (Nat.leb 48 n && Nat.leb n 57) || (Nat.leb 65 n && Nat.leb n 90)
  || (Nat.leb 97 n && Nat.leb n 122) || Nat.eqb n 95 || Nat.eqb n 45.

Fixpoint ws_to_hyphen_go (in_run : bool) (s : string) : string :=
  match s with
  | EmptyString => EmptyString
  | String c r =>
      if is_ws c then
        if in_run then ws_to_hyphen_go true r else String "-" (ws_to_hyphen_go true r)
      else String c (ws_to_hyphen_go false r)
  end.

Fixpoint keep_word_chars (s : string) : string :=
  match s with
  | EmptyString => EmptyString
  | String c r =>
      if is_word_or_hyphen c then String c (keep_word_chars r) else keep_word_chars r
  end.

Fixpoint to_lower (s : string) : string :=
  match s with
  | EmptyString => EmptyString
  | String c r =>
      let n := code c in
      String (if Nat.leb 65 n && Nat.leb n 90 then ascii_of_nat (n + 32) else c)
             (to_lower r)
  end.

(** [sanitizeTag]: [.replace(/\s+/g, '-').replace(/[^\w\-]/g, '').toLowerCase()] *)
Definition sanitizeTag (tag : string) : string :=
  to_lower (keep_word_chars (ws_to_hyphen_go false tag)).

(** [String(n)] for an integer. *)
Definition Z_to_dec (z : Z) : string :=
  let fix go (fuel : nat) (n : Z) (acc : string) : string :=
    match fuel with
    | O => acc
    | S f =>
        let acc' := String (ascii_of_nat (48 + Z.to_nat (n mod 10)%Z)) acc in
        if (n <? 10)%Z then acc' else go f (n / 10)%Z acc'
    end in
  if (z <? 0)%Z then "-" ++ go 400%nat (- z)%Z "" else go 400%nat z "".

(** [Object.keys(obj).length > 0] counts the fields that were set. *)
Definition set_b {A} (o : option A) : bool :=
  match o with Some _ => true | None => false end.

Definition build_location (loc : location) : option fm_location :=
  let l := {| l_name := keep_str (placeName loc);
              l_locality := keep_str (localityName loc);
              l_region := keep_str (administrativeArea loc);
              l_country := keep_str (country loc);
              l_latitude := keep_q (latitude loc);
              l_longitude := keep_q (longitude loc) |} in
  if set_b (l_name l) || set_b (l_locality l) || set_b (l_region l)
     || set_b (l_country l) || set_b (l_latitude l) || set_b (l_longitude l)
  then Some l else None.

(** The moon phase: [if (w.moonPhaseCode && MOON_PHASES[w.moonPhaseCode])]. *)
Definition moon_phase_of (w : weather) : option js_prop :=
  if str_truthy (moonPhaseCode w) then
    let p := get_prop MOON_PHASES (str_or (moonPhaseCode w) "") in
    if prop_truthy p then p else None
  else None.

Definition build_weather (w : weather) : option fm_weather :=
  let r := {| w_conditions := keep_str (conditionsDescription w);
              w_temperature_c := keep_q (temperatureCelsius w);
              w_humidity := keep_q_pos (relativeHumidity w);
              w_pressure_mb := keep_q (pressureMB w);
              w_wind_speed_kph := keep_q (windSpeedKPH w);
              w_wind_bearing := keep_q (windBearing w);
              w_visibility_km := keep_q_pos (visibilityKM w);
              w_moon_phase := moon_phase_of w |} in
  if set_b (w_conditions r) || set_b (w_temperature_c r) || set_b (w_humidity r)
     || set_b (w_pressure_mb r) || set_b (w_wind_speed_kph r)
     || set_b (w_wind_bearing r) || set_b (w_visibility_km r)
     || set_b (w_moon_phase r)
  then Some r else None.

Definition build_activity (a : activity) : option fm_activity :=
  let r := {| a_type := keep_str (activityName a); a_steps := keep_z (stepCount a) |} in
  if set_b (a_type r) || set_b (a_steps r) then Some r else None.

Definition build_device (e : entry) : option fm_device :=
  if str_truthy (creationDevice e) || str_truthy (creationDeviceType e) then
    let d := {| d_name := keep_str (creationDevice e);
                d_type := keep_str (creationDeviceType e);
                d_model := keep_str (creationDeviceModel e);
                d_os := keep_str (creationOSName e);
                d_os_version := keep_str (creationOSVersion e) |} in
    if set_b (d_name d) || set_b (d_type d) || set_b (d_model d)
       || set_b (d_os d) || set_b (d_os_version d)
    then Some d else None
  else None.

(** [[photo.cameraMake, photo.cameraModel].filter(Boolean).join(' ').trim()] *)
Definition camera_of (p : attachment) : string :=
  let parts := List.filter (fun s => negb (String.eqb s ""))
                 (List.map (fun o => match o with Some s => s | None => "" end)
                           [cameraMake p; cameraModel p]) in
  trim (String.concat " " parts).

Definition build_photo_meta (p : attachment) : photo_meta :=
  let camera := camera_of p in
  {| p_file := md5 p ++ "." ++ str_or (type p) "jpeg";
     p_identifier := identifier p;
     p_camera := if String.eqb camera "" then None else Some camera;
     p_lens := keep_str (lensModel p);
     p_date := keep_str (date p);
     p_dimensions :=
       match width p, height p with
       | Some w, Some h =>
           if z_truthy (Some w) && z_truthy (Some h)
           then Some (Z_to_dec w ++ "x" ++ Z_to_dec h) else None
       | _, _ => None
       end |}.

(** [Math.round] *)
Definition js_round (q : Q) : Z := Qfloor (q + (1 # 2)).

Definition buildFrontmatter (e : entry) : frontmatter :=
  {| fm_uuid := keep_str (uuid e);
     fm_created := keep_str (creationDate e);
     fm_modified := keep_str (modifiedDate e);
     fm_timezone := keep_str (timeZone e);
     fm_starred := keep_bool (starred e);
     fm_pinned := keep_bool (isPinned e);
     fm_all_day := keep_bool (isAllDay e);
     fm_tags :=
       match tags e with
       | Some ((_ :: _) as ts) => Some (List.map sanitizeTag ts)
       | _ => None
       end;
     fm_location_ := match entry_location e with Some l => build_location l | None => None end;
     fm_weather_ := match entry_weather e with Some w => build_weather w | None => None end;
     fm_activity_ := match userActivity e with Some a => build_activity a | None => None end;
     fm_device_ := build_device e;
     fm_photos :=
       match photos e with
       | Some ((_ :: _) as ps) => Some (List.map build_photo_meta ps)
       | _ => None
       end;
     fm_editing_time_seconds :=
       match editingTime e with
       | Some q => if q_pos (Some q) then Some (js_round q) else None
       | None => None
       end |}.

(** [window.jsyaml.dump(fm, ...)] refuses function values (its default
    [skipInvalid: false]); a function can only reach the record through the
    moon-phase lookup. *)
Definition yaml_dump_check (fm : frontmatter) : res unit :=
  match fm_weather_ fm with
  | Some w =>
      match w_moon_phase w with
      | Some (PFun _) => Throw YAMLException
      | _ => Ok tt
      end
  | None => Ok tt
  end.

(* ------------------------------------------------------------------ *)
(** ** [convertEntry] and the output archive *)

(** What [outputZip.file(path, data)] receives: an entry file (frontmatter
    and converted body, joined by the YAML block) or raw media bytes. *)
Inductive out_content :=
| OEntry (fm : frontmatter) (body : string)
| OMedia (data : string).

Abbreviation zip := (list (string * out_content)).

(** [zip.file(path, data)]: replaces an existing file of that path in
    place, otherwise adds it at the end. *)
Definition zip_file (path : string) (c : out_content) (z : zip) : zip :=
  if existsb (fun p => String.eqb p.1 path) z
  then List.map (fun p => if String.eqb p.1 path then (path, c) else p) z
  else z ++ [(path, c)].

Definition convertEntry `{DP : DateParse} (st : state) (e : entry)
    : res (string * out_content * state) :=
  let st := buildPhotoMap st e in
  let fm := buildFrontmatter e in
  _ ← yaml_dump_check fm;
  let content := convertContent st e in
  '(filename, st) ← generateFilename st e;
  Ok (filename, OEntry fm content, st).

(** The loop of [convert] over the entries: the instance state, the output
    archive and the local counter [converted].  (Progress reports are a
    side channel and are not modelled.) *)
Record run := { run_state : state; run_zip : zip; run_converted : nat }.

Definition convert_step `{DP : DateParse} (r : run) (e : entry) : res run :=
  let st := run_state r in
  if shouldSkipDuplicate st e then
    Ok {| run_state := incr_skipped st; run_zip := run_zip r;
          run_converted := run_converted r |}
  else
    '(filename, content, st1) ← convertEntry st e;
    let z := zip_file ("entries/" ++ filename) content (run_zip r) in
    let st2 := if allowDuplicates st1 then st1 else recordEntry st1 e in
    Ok {| run_state := st2; run_zip := z; run_converted := S (run_converted r) |}.

Fixpoint convert_entries `{DP : DateParse} (r : run) (es : list entry) : res run :=
  match es with
  | [] => Ok r
  | e :: es' => r' ← convert_step r e; convert_entries r' es'
  end.

(* ------------------------------------------------------------------ *)
(** ** [convert] *)

(** [JSON.parse] of the journal file, as far as [convert] looks at it:
    [null] (reading [.entries] of it is a TypeError) or another value whose
    [entries] property is an array of entries, or is absent or falsy.  A
    truthy non-array [entries] is outside the model. *)
Inductive journal_value :=
| JNull
| JValue (entries : option (list entry)).

(** A file of the input ZIP: its name, whether it is a directory, its bytes,
    and what [JSON.parse] gives on its text ([None]: a SyntaxError). *)
Record zip_entry := {
  zname : string;
  zdir : bool;
  zdata : string;
  zjson : option journal_value }.

Definition mediaFolders : list string := ["photos"; "videos"; "audios"; "pdfs"].

Definition is_media_file (f : zip_entry) : bool :=
  if zdir f then false
  else existsb (fun folder =>
         includes ("/" ++ folder ++ "/") (zname f)
         || starts_with (folder ++ "/") (zname f)) mediaFolders.

(** The loop copying [mediaFiles] to [attachments/]. *)
Definition copy_media (input : list zip_entry) : zip :=
  let mediaFiles := List.filter is_media_file input in
  fold_left (fun z f =>
    zip_file ("attachments/" ++ last_segment (zname f)) (OMedia (zdata f)) z)
    mediaFiles [].

(** [convert(zipFile)] after the ZIP has been loaded: the output archive
    and the converter state afterwards. *)
Definition convert `{DP : DateParse} (st : state) (input : list zip_entry) : res (zip * state) :=
  let jsonFiles := List.filter (fun f => ends_with ".json" (zname f)) input in
  match jsonFiles with
  | [] => Throw (Error "No JSON file found in ZIP")
  | jf :: _ =>
      journalData ← (match zjson jf with Some v => Ok v | None => Throw SyntaxError end);
      entries ← (match journalData with
                 | JNull => Throw TypeError
                 | JValue es => Ok (opt_list es)
                 end);
      let z := copy_media input in
      r ← convert_entries {| run_state := st; run_zip := z; run_converted := 0 |} entries;
      Ok (run_zip r, run_state r)
  end.

(** The engine of the sample evaluations below; every theorem about the
    conversion binds its own [DateParse] instead. *)
#[global] Instance parse_iso_utc_engine : DateParse | 100 := parse_iso_utc.

(* ------------------------------------------------------------------ *)
(** ** Sample inputs *)

Definition blank_entry : entry :=
  {| uuid := None; text := None; creationDate := None; modifiedDate := None;
     timeZone := None; starred := None; isPinned := None; isAllDay := None;
     tags := None; entry_location := None; entry_weather := None;
     userActivity := None; creationDevice := None; creationDeviceType := None;
     creationDeviceModel := None; creationOSName := None; creationOSVersion := None;
     photos := None; videos := None; audios := None; pdfAttachments := None;
     editingTime := None |}.

(** An entry with an identifier, a body and a creation date. *)
Definition mk_entry (u : option string) (t : option string) (d : option string) : entry :=
  {| uuid := u; text := t; creationDate := d; modifiedDate := None;
     timeZone := None; starred := None; isPinned := None; isAllDay := None;
     tags := None; entry_location := None; entry_weather := None;
     userActivity := None; creationDevice := None; creationDeviceType := None;
     creationDeviceModel := None; creationOSName := None; creationOSVersion := None;
     photos := None; videos := None; audios := None; pdfAttachments := None;
     editingTime := None |}.

Definition journal_file (v : journal_value) : zip_entry :=
  {| zname := "Journal.json"; zdir := false; zdata := ""; zjson := Some v |}.

Definition morning : entry :=
  mk_entry (Some "0123456789ABCDEF") (Some ("# Morning thoughts" ++ String newline "Hello"))
           (Some "2024-01-15T10:00:00Z").

(* ------------------------------------------------------------------ *)
(** * Evaluations on sample inputs *)

Example hashString_ab : hashString "ab" = "c21".
Proof. reflexivity. Qed.

Example unescape_sample :
  unescapeDayoneMarkdown (String backslash "." ++ "5 " ++ String backslash "- x")
  = ".5 - x".
Proof. reflexivity. Qed.

Example convertImageReferences_sample :
  convertImageReferences {[ "AB" := {| media_md5 := "f"; media_type := "png" |} ]}
    "x ![](dayone-moment://AB) ![](dayone-moment://CD) ![](dayone-moment://ab)"
  = "x ![[f.png]] <!-- Missing media: CD --> ![](dayone-moment://ab)".
Proof. reflexivity. Qed.

Example extractTitle_heading :
  extractTitle (Some ("# Morning thoughts" ++ String newline "Hello"))
  = Some "Morning thoughts".
Proof. reflexivity. Qed.

Example extractTitle_first_line :
  extractTitle (Some ("![](dayone-moment://AB)## Walk" ++ String newline "x"))
  = Some "Walk".
Proof. reflexivity. Qed.

Example iso_date_part_sample :
  iso_date_part (new_Date (Some "2024-01-15T10:00:00Z")) = Ok "2024-01-15".
Proof. reflexivity. Qed.

Example iso_date_part_leap :
  iso_date_part (new_Date (Some "2000-02-29T23:59:59Z")) = Ok "2000-02-29".
Proof. reflexivity. Qed.

Example convert_morning :
  match convert (new_converter false) [journal_file (JValue (Some [morning]))] with
  | Ok (z, _) => List.map fst z
  | Throw _ => []
  end = ["entries/2024-01-15 Morning thoughts.md"].
Proof. reflexivity. Qed.

(* ------------------------------------------------------------------ *)
(** * Frame lemmas for one converted entry *)

Lemma bind_Ok {A B} (m : res A) (f : A -> res B) (b : B) :
  (m ≫= f) = Ok b -> exists a, m = Ok a /\ f a = Ok b.
Proof. destruct m as [a|e]; simpl; [eauto | discriminate]. Qed.

(** Split [m ≫= f = Ok b] in [H]; the continuation stays in [H]. *)
Ltac inv_bind H := apply bind_Ok in H; destruct H as (?a & ?Ha & H).

Lemma buildPhotoMap_frame st e :
  allowDuplicates (buildPhotoMap st e) = allowDuplicates st /\
  seenEntries (buildPhotoMap st e) = seenEntries st /\
  usedFilenames (buildPhotoMap st e) = usedFilenames st /\
  skippedDuplicates (buildPhotoMap st e) = skippedDuplicates st.
Proof. repeat split. Qed.

Lemma generateFilename_frame `{DP : DateParse} st e fn st' :
  generateFilename st e = Ok (fn, st') ->
  allowDuplicates st' = allowDuplicates st /\ seenEntries st' = seenEntries st /\
  photoMap st' = photoMap st /\ skippedDuplicates st' = skippedDuplicates st.
Proof.
  unfold generateFilename. intros H.
  inv_bind H. inv_bind H. inv_bind H.
  injection H as <- <-. repeat split.
Qed.

Lemma convertEntry_frame `{DP : DateParse} st e fn c st' :
  convertEntry st e = Ok (fn, c, st') ->
  allowDuplicates st' = allowDuplicates st /\ seenEntries st' = seenEntries st /\
  skippedDuplicates st' = skippedDuplicates st.
Proof.
  unfold convertEntry. intros H.
  inv_bind H. inv_bind H. destruct a0 as [fn' st1].
  injection H as <- <- <-.
  apply generateFilename_frame in Ha0 as (-> & -> & _ & ->).
  repeat split.
Qed.

(* ------------------------------------------------------------------ *)
(** * Deduplication *)

(** Entry [e] records a fingerprint under identifier [u]: its [uuid] is
    truthy and equal to [u]. *)
Definition records (u : string) (e : entry) : bool :=
  str_truthy (uuid e) && String.eqb (str_or (uuid e) "") u.

(** The body of the last entry of [es] that records under [u]. *)
Fixpoint last_text_for (u : string) (es : list entry) : option string :=
  match es with
  | [] => None
  | e :: es' =>
      match last_text_for u es' with
      | Some t => Some t
      | None => if records u e then Some (text_or_empty e) else None
      end
  end.

Lemma convert_step_seen `{DP : DateParse} r e r' u :
  allowDuplicates (run_state r) = false ->
  convert_step r e = Ok r' ->
  allowDuplicates (run_state r') = false /\
  seenEntries (run_state r') !! u =
    if records u e then Some (hashString (text_or_empty e))
    else seenEntries (run_state r) !! u.
Proof.
  intros Hallow. unfold convert_step.
  destruct (shouldSkipDuplicate (run_state r) e) eqn:Hskip.
  - intros H. injection H as <-. simpl. split; [exact Hallow|].
    unfold records. destruct (str_truthy (uuid e)) eqn:Ht; simpl; [|reflexivity].
    destruct (String.eqb_spec (str_or (uuid e) "") u) as [<-|]; [|reflexivity].
    unfold shouldSkipDuplicate in Hskip. rewrite Hallow, Ht in Hskip. simpl in Hskip.
    destruct (seenEntries (run_state r) !! str_or (uuid e) "") as [h|]; [|discriminate].
    apply String.eqb_eq in Hskip. now subst.
  - intros H. inv_bind H. destruct a as [[fn c] st1].
    injection H as <-. simpl.
    apply convertEntry_frame in Ha as (Hal & Hseen & _).
    rewrite Hal, Hallow. split.
    { unfold recordEntry. destruct (str_truthy (uuid e)); simpl; congruence. }
    unfold recordEntry, records. destruct (str_truthy (uuid e)); simpl; [|now rewrite Hseen].
    destruct (String.eqb_spec (str_or (uuid e) "") u) as [<-|Hne].
    + apply lookup_insert_eq.
    + rewrite lookup_insert_ne by congruence. now rewrite Hseen.
Qed.

Lemma convert_entries_seen `{DP : DateParse} es r r' u :
  allowDuplicates (run_state r) = false ->
  convert_entries r es = Ok r' ->
  allowDuplicates (run_state r') = false /\
  seenEntries (run_state r') !! u =
    match last_text_for u es with
    | Some t => Some (hashString t)
    | None => seenEntries (run_state r) !! u
    end.
Proof.
  revert r. induction es as [|e es IH]; intros r Hallow H; simpl in H.
  - injection H as <-. auto.
  - inv_bind H. destruct (convert_step_seen r e a u Hallow Ha) as [Hal Hs].
    destruct (IH a Hal H) as [Hal' Hs']. split; [exact Hal'|].
    rewrite Hs'. simpl. destruct (last_text_for u es); [reflexivity|].
    rewrite Hs. destruct (records u e); reflexivity.
Qed.

Lemma shouldSkipDuplicate_seen st e u :
  allowDuplicates st = false -> uuid e = Some u -> u <> "" ->
  shouldSkipDuplicate st e =
    match seenEntries st !! u with
    | Some h => String.eqb h (hashString (text_or_empty e))
    | None => false
    end.
Proof.
  intros Hallow Hu Hne. unfold shouldSkipDuplicate. rewrite Hallow, Hu.
  simpl. destruct (String.eqb_spec u "") as [|_]; [contradiction|]. reflexivity.
Qed.

(** The loop started on a converter state, with an empty archive. *)
Definition start_run (st : state) : run :=
  {| run_state := st; run_zip := []; run_converted := 0 |}.

(** Entries converted and entries skipped by a run, when it completes. *)
Definition run_counts (r : res run) : option (nat * nat) :=
  match r with
  | Ok r => Some (run_converted r, skippedDuplicates (run_state r))
  | Throw _ => None
  end.

Definition dup_id : string := "0123456789ABCDEF".
Definition dup_x : entry := mk_entry (Some dup_id) (Some "x") (Some "2024-01-15T10:00:00Z").
Definition dup_y : entry := mk_entry (Some dup_id) (Some "y") (Some "2024-01-15T10:00:00Z").

(** The run state after [dup_x] then [dup_y]. *)
Definition dup_run : run :=
  match convert_entries (start_run (new_converter false)) [dup_x; dup_y] with
  | Ok r => r
  | Throw _ => start_run (new_converter false)
  end.

(** Claim C1, refuted: with deduplication enabled, an entry [x], then an
    entry [y] under the same identifier, then [x] again: the first recorded
    fingerprint is that of [x] (and differs from that of [y]), yet the
    third entry is not skipped; all three are converted. *)
Lemma C1_first_occurrence_not_kept :
  (match convert_entries (start_run (new_converter false)) [dup_x] with
   | Ok r => seenEntries (run_state r) !! dup_id
   | Throw _ => None
   end = Some (hashString (text_or_empty dup_x))) /\
  hashString (text_or_empty dup_y) <> hashString (text_or_empty dup_x) /\
  run_counts (convert_entries (start_run (new_converter false)) [dup_x; dup_y; dup_x])
  = Some (3, 0).
Proof.
  split; [vm_compute; reflexivity|]. split; [vm_compute; discriminate|].
  vm_compute. reflexivity.
Qed.

(** Claim C1, as the code behaves: in a run with deduplication enabled
    started without a fingerprint for [u], the fingerprint recorded for [u]
    is that of the body of the last entry with identifier [u] (last write
    wins: converting different content replaces it), and an entry [e] with
    identifier [u] is then skipped exactly when its body fingerprint equals
    that one. *)
Theorem C1_dedup_last_recorded_wins `{DP : DateParse} (r0 : run) (es : list entry) (r : run)
    (u : string) (e : entry) :
  allowDuplicates (run_state r0) = false ->
  seenEntries (run_state r0) !! u = None ->
  convert_entries r0 es = Ok r ->
  uuid e = Some u -> u <> "" ->
  seenEntries (run_state r) !! u = option_map hashString (last_text_for u es) /\
  shouldSkipDuplicate (run_state r) e =
    match last_text_for u es with
    | Some t => String.eqb (hashString t) (hashString (text_or_empty e))
    | None => false
    end.
Proof.
  intros Hallow Hfresh Hrun Hu Hne.
  destruct (convert_entries_seen es r0 r u Hallow Hrun) as [Hal Hs].
  rewrite Hfresh in Hs.
  assert (Hs' : seenEntries (run_state r) !! u = option_map hashString (last_text_for u es))
    by (rewrite Hs; destruct (last_text_for u es); reflexivity).
  split; [exact Hs'|].
  rewrite (shouldSkipDuplicate_seen _ e u Hal Hu Hne), Hs'.
  destruct (last_text_for u es); reflexivity.
Qed.

Lemma C1_dedup_last_recorded_wins_witness :
  convert_entries (start_run (new_converter false)) [dup_x; dup_y] = Ok dup_run /\
  shouldSkipDuplicate (run_state dup_run) dup_x =
    String.eqb (hashString "y") (hashString (text_or_empty dup_x)).
Proof.
  assert (H : convert_entries (start_run (new_converter false)) [dup_x; dup_y] = Ok dup_run)
    by (vm_compute; reflexivity).
  split; [exact H|].
  exact (proj2 (C1_dedup_last_recorded_wins (start_run (new_converter false))
                  [dup_x; dup_y] dup_run dup_id dup_x eq_refl eq_refl H eq_refl
                  ltac:(discriminate))).
Defined.

(** Claim C8: when an entry is skipped as a duplicate (deduplication
    enabled, its identifier already recorded with its body fingerprint),
    the step increments the skipped counter by one and changes nothing
    else: not the MediaIndex, the used filenames, the fingerprints, the
    output archive or the converted counter. *)
Theorem C8_skip_only_counts `{DP : DateParse} (r : run) (e : entry) (u : string) :
  allowDuplicates (run_state r) = false ->
  uuid e = Some u -> u <> "" ->
  seenEntries (run_state r) !! u = Some (hashString (text_or_empty e)) ->
  exists r', convert_step r e = Ok r' /\
    skippedDuplicates (run_state r') = S (skippedDuplicates (run_state r)) /\
    photoMap (run_state r') = photoMap (run_state r) /\
    usedFilenames (run_state r') = usedFilenames (run_state r) /\
    seenEntries (run_state r') = seenEntries (run_state r) /\
    allowDuplicates (run_state r') = allowDuplicates (run_state r) /\
    run_zip r' = run_zip r /\
    run_converted r' = run_converted r.
Proof.
  intros Hallow Hu Hne Hseen.
  assert (Hskip : shouldSkipDuplicate (run_state r) e = true).
  { rewrite (shouldSkipDuplicate_seen _ e u Hallow Hu Hne), Hseen.
    apply String.eqb_refl. }
  unfold convert_step. rewrite Hskip.
  eexists; split; [reflexivity|]. repeat split.
Qed.

Definition seen_run : run :=
  {| run_state := set_seenEntries (new_converter false) {[ dup_id := hashString "x" ]};
     run_zip := []; run_converted := 0 |}.

Lemma C8_skip_only_counts_witness :
  seenEntries (run_state seen_run) !! dup_id = Some (hashString (text_or_empty dup_x)) /\
  exists r', convert_step seen_run dup_x = Ok r' /\
    skippedDuplicates (run_state r') = (1%nat) /\ run_zip r' = [] /\
    run_converted r' = (0%nat).
Proof.
  assert (Hs : seenEntries (run_state seen_run) !! dup_id
               = Some (hashString (text_or_empty dup_x))) by reflexivity.
  split; [exact Hs|].
  destruct (C8_skip_only_counts seen_run dup_x dup_id eq_refl eq_refl ltac:(discriminate) Hs)
    as (r' & Hstep & Hsk & _ & _ & _ & _ & Hz & Hc).
  exists r'. split; [exact Hstep|]. rewrite Hsk, Hz, Hc. repeat split.
Defined.

(* ------------------------------------------------------------------ *)
(** * Image references *)

Lemma str_app_cons c (a b : string) : String c a ++ b = String c (a ++ b).
Proof. reflexivity. Qed.

Lemma str_app_nil_l (b : string) : "" ++ b = b.
Proof. reflexivity. Qed.

Lemma str_app_assoc (a b c : string) : (a ++ b) ++ c = a ++ (b ++ c).
Proof.
  induction a as [|x a IH]; [reflexivity|].
  rewrite !str_app_cons. now f_equal.
Qed.

Lemma str_app_nil_r (a : string) : a ++ "" = a.
Proof.
  induction a as [|x a IH]; [reflexivity|].
  rewrite str_app_cons. now f_equal.
Qed.

Lemma str_length_app (a b : string) :
  String.length (a ++ b) = (String.length a + String.length b)%nat.
Proof.
  induction a as [|x a IH]; [reflexivity|].
  rewrite str_app_cons. simpl. now f_equal.
Qed.

(** The placeholder [![](dayone-moment://ID)]. *)
Definition placeholder (id : string) : string := moment_prefix ++ id ++ ")".

Fixpoint all_upper_hex (s : string) : bool :=
  match s with
  | EmptyString => true
  | String c r => is_upper_hex c && all_upper_hex r
  end.

Lemma strip_prefix_app p s : strip_prefix p (p ++ s) = Some s.
Proof.
  induction p as [|a p IH]; simpl; [reflexivity|].
  now rewrite Ascii.eqb_refl.
Qed.

Lemma strip_prefix_Some p s r : strip_prefix p s = Some r -> s = p ++ r.
Proof.
  revert s. induction p as [|a p IH]; intros s H; simpl in *.
  - now injection H.
  - destruct s as [|b s]; [discriminate|].
    destruct (Ascii.eqb_spec a b) as [<-|]; [|discriminate].
    now rewrite (IH s H).
Qed.

Lemma hex_run_hex_paren h rest :
  all_upper_hex h = true ->
  hex_run (h ++ String ")" rest) = (h, String ")" rest).
Proof.
  induction h as [|c h IH]; simpl; intros H.
  - reflexivity.
  - apply andb_prop in H as [Hc Hh]. rewrite Hc, (IH Hh). reflexivity.
Qed.

Lemma hex_run_spec s h r :
  hex_run s = (h, r) -> s = h ++ r /\ all_upper_hex h = true.
Proof.
  revert h r. induction s as [|c s IH]; intros h r H; simpl in H.
  - injection H as <- <-. auto.
  - destruct (is_upper_hex c) eqn:Hc.
    + destruct (hex_run s) as [h' r'] eqn:E. injection H as <- <-.
      destruct (IH h' r' eq_refl) as [-> Hh]. simpl. rewrite Hc, Hh. auto.
    + injection H as <- <-. auto.
Qed.

Lemma match_moment_placeholder id rest :
  id <> "" -> all_upper_hex id = true ->
  match_moment (placeholder id ++ rest) = Some (id, rest).
Proof.
  intros Hne Hhex. unfold match_moment, placeholder.
  rewrite !str_app_assoc, strip_prefix_app.
  change (")" ++ rest) with (String ")" rest).
  rewrite hex_run_hex_paren by exact Hhex.
  destruct id; [contradiction|reflexivity].
Qed.

Lemma match_moment_Some s id rest :
  match_moment s = Some (id, rest) ->
  s = placeholder id ++ rest /\ id <> "" /\ all_upper_hex id = true.
Proof.
  unfold match_moment. destruct (strip_prefix moment_prefix s) as [after|] eqn:Hs;
    [|discriminate].
  destruct (hex_run after) as [h r] eqn:Hh.
  destruct (hex_run_spec _ _ _ Hh) as [-> Hhex].
  destruct h as [|c h]; [discriminate|].
  destruct r as [|p r]; [discriminate|].
  destruct (Ascii.eqb_spec p ")") as [->|Hp].
  - intros H. injection H as <- <-.
    apply strip_prefix_Some in Hs. subst s. unfold placeholder.
    rewrite !str_app_assoc. split; [reflexivity|]. split; [discriminate|exact Hhex].
  - destruct p as [[] [] [] [] [] [] [] []]; try discriminate; now destruct Hp.
Qed.

Lemma match_moment_shorter s id rest :
  match_moment s = Some (id, rest) -> (String.length rest < String.length s)%nat.
Proof.
  intros H. apply match_moment_Some in H as (-> & _ & _).
  unfold placeholder. rewrite !str_length_app. simpl. lia.
Qed.

Lemma replace_moments_fuel m n1 n2 s :
  (String.length s < n1)%nat -> (String.length s < n2)%nat ->
  replace_moments n1 m s = replace_moments n2 m s.
Proof.
  revert n2 s. induction n1 as [|f1 IH]; intros n2 s H1 H2; [lia|].
  destruct n2 as [|f2]; [lia|]. simpl.
  destruct (match_moment s) as [[id rest]|] eqn:Hm.
  - pose proof (match_moment_shorter _ _ _ Hm). f_equal. apply IH; lia.
  - destruct s as [|c r]; [reflexivity|]. simpl in *. f_equal. apply IH; lia.
Qed.

Lemma convertImageReferences_fuel m n s :
  (String.length s < n)%nat -> replace_moments n m s = convertImageReferences m s.
Proof. intros H. apply replace_moments_fuel; [exact H|simpl; lia]. Qed.

(** One step of the global replace. *)
Lemma convertImageReferences_step m s :
  convertImageReferences m s =
    match match_moment s with
    | Some (id, rest) => moment_replacement m id ++ convertImageReferences m rest
    | None =>
        match s with
        | EmptyString => EmptyString
        | String c r => String c (convertImageReferences m r)
        end
    end.
Proof.
  unfold convertImageReferences at 1. cbn [replace_moments].
  destruct (match_moment s) as [[id rest]|] eqn:Hm.
  - pose proof (match_moment_shorter _ _ _ Hm).
    f_equal. apply convertImageReferences_fuel. lia.
  - destruct s as [|c r]; reflexivity.
Qed.

(** Claim C2: [convertImageReferences] rewrites the text from left to
    right; a placeholder [![](dayone-moment://ID)] with [ID] a non-empty
    run of uppercase hexadecimal digits is replaced by [![[md5.type]]] when
    [ID] is registered and by a comment naming [ID] otherwise; a character
    where no such placeholder starts is copied unchanged.  In particular an
    unregistered [ABC123] yields a comment naming it, and a registered one
    with fingerprint [f00d] and kind [jpeg] yields a link to [f00d.jpeg]. *)
Theorem C2_convertImageReferences_spec (m : gmap string media) :
  convertImageReferences m "" = "" /\
  (forall id rest, id <> "" -> all_upper_hex id = true ->
     convertImageReferences m (placeholder id ++ rest) =
       match m !! id with
       | Some md => "![[" ++ media_md5 md ++ "." ++ media_type md ++ "]]"
       | None => "<!-- Missing media: " ++ id ++ " -->"
       end ++ convertImageReferences m rest) /\
  (forall c rest,
     (forall id rest', id <> "" -> all_upper_hex id = true ->
        String c rest <> placeholder id ++ rest') ->
     convertImageReferences m (String c rest) = String c (convertImageReferences m rest)) /\
  convertImageReferences ∅ (placeholder "ABC123") = "<!-- Missing media: ABC123 -->" /\
  convertImageReferences {[ "ABC123" := {| media_md5 := "f00d"; media_type := "jpeg" |} ]}
    (placeholder "ABC123") = "![[f00d.jpeg]]".
Proof.
  split; [reflexivity|]. split; [|split; [|split; reflexivity]].
  - intros id rest Hne Hhex.
    rewrite convertImageReferences_step, (match_moment_placeholder id rest Hne Hhex).
    reflexivity.
  - intros c rest Hnot.
    rewrite convertImageReferences_step.
    destruct (match_moment (String c rest)) as [[id rest']|] eqn:Hm.
    + apply match_moment_Some in Hm as (Heq & Hne & Hhex).
      exfalso. exact (Hnot id rest' Hne Hhex Heq).
    + reflexivity.
Qed.

(* ------------------------------------------------------------------ *)
(** * Unescaping *)

Fixpoint has_backslash (s : string) : bool :=
  match s with
  | EmptyString => false
  | String c r => Ascii.eqb c backslash || has_backslash r
  end.

(** The text made of the marks [cs], each preceded by a backslash. *)
Fixpoint escape_all (cs : list ascii) : string :=
  match cs with
  | [] => EmptyString
  | c :: cs' => String backslash (String c (escape_all cs'))
  end.

(** Texts seen as a sequence of bare characters and escaped characters. *)
Inductive tok := Bare (c : ascii) | Esc (c : ascii).

Definition tok_char (t : tok) : ascii := match t with Bare c | Esc c => c end.

Fixpoint render (ts : list tok) : string :=
  match ts with
  | [] => EmptyString
  | Bare c :: ts' => String c (render ts')
  | Esc c :: ts' => String backslash (String c (render ts'))
  end.

(** The effect of [unescape_char d] on one token. *)
Definition unescape_tok (d : ascii) (t : tok) : tok :=
  match t with
  | Esc c => if Ascii.eqb c d then Bare c else Esc c
  | Bare c => Bare c
  end.

Lemma unescape_char_cons_nb d a r :
  a <> backslash -> unescape_char d (String a r) = String a (unescape_char d r).
Proof.
  intros Ha. destruct r as [|b r]; [reflexivity|].
  cbn [unescape_char]. destruct (Ascii.eqb_spec a backslash); [contradiction|reflexivity].
Qed.

Lemma unescape_char_cons2 d a b r :
  unescape_char d (String a (String b r)) =
    if Ascii.eqb a backslash && Ascii.eqb b d
    then String d (unescape_char d r)
    else String a (unescape_char d (String b r)).
Proof. reflexivity. Qed.

Lemma unescape_char_render d ts :
  Forall (fun t => tok_char t <> backslash) ts ->
  unescape_char d (render ts) = render (map (unescape_tok d) ts).
Proof.
  induction ts as [|t ts IH]; intros H; [reflexivity|].
  inversion H as [|? ? Ht Hts]; subst. specialize (IH Hts).
  destruct t as [c|c]; cbn [tok_char] in Ht; cbn [render map unescape_tok].
  - rewrite unescape_char_cons_nb by exact Ht. now rewrite IH.
  - rewrite unescape_char_cons2, Ascii.eqb_refl. cbn [andb].
    destruct (Ascii.eqb_spec c d) as [->|Hcd].
    + cbn [render]. now rewrite IH.
    + cbn [render]. rewrite unescape_char_cons_nb by exact Ht. now rewrite IH.
Qed.

Lemma unescape_tok_char d t : tok_char (unescape_tok d t) = tok_char t.
Proof. destruct t as [c|c]; simpl; [reflexivity|]. now destruct (Ascii.eqb c d). Qed.

Lemma unescape_render marks ts :
  Forall (fun t => tok_char t <> backslash) ts ->
  fold_left (fun t c => unescape_char c t) marks (render ts) =
  render (map (fun t => fold_left (fun t d => unescape_tok d t) marks t) ts).
Proof.
  revert ts. induction marks as [|d marks IH]; intros ts H; simpl.
  - now rewrite map_id.
  - rewrite unescape_char_render by exact H. rewrite IH.
    + now rewrite map_map.
    + apply Forall_map. eapply Forall_impl; [exact H|].
      intros t Ht. simpl. now rewrite unescape_tok_char.
Qed.

Lemma escaped_mark_unescaped c :
  In c escaped_marks ->
  fold_left (fun t d => unescape_tok d t) escaped_marks (Esc c) = Bare c.
Proof.
  simpl. intros H.
  repeat (destruct H as [<-|H]; [reflexivity|]). destruct H.
Qed.

Lemma escaped_mark_not_backslash c : In c escaped_marks -> c <> backslash.
Proof.
  simpl. intros H.
  repeat (destruct H as [<-|H]; [discriminate|]). destruct H.
Qed.

Lemma render_bare (cs : list ascii) : render (map Bare cs) = string_of_list_ascii cs.
Proof. induction cs as [|c cs IH]; simpl; [reflexivity|now rewrite IH]. Qed.

Lemma render_esc (cs : list ascii) : render (map Esc cs) = escape_all cs.
Proof. induction cs as [|c cs IH]; simpl; [reflexivity|now rewrite IH]. Qed.

Lemma unescape_char_no_backslash d s :
  has_backslash s = false -> unescape_char d s = s.
Proof.
  induction s as [|a s IH]; intros H; [reflexivity|].
  simpl in H. apply orb_false_iff in H as [Ha Hs].
  rewrite unescape_char_cons_nb.
  - now rewrite IH.
  - intros ->. now rewrite Ascii.eqb_refl in Ha.
Qed.

Lemma unescape_no_backslash s :
  has_backslash s = false -> unescapeDayoneMarkdown s = s.
Proof.
  intros H. unfold unescapeDayoneMarkdown.
  generalize escaped_marks. intros marks. induction marks as [|d marks IH]; [reflexivity|].
  simpl. rewrite unescape_char_no_backslash by exact H. exact IH.
Qed.

Lemma no_backslash_marks (cs : list ascii) :
  Forall (fun c => In c escaped_marks) cs ->
  has_backslash (string_of_list_ascii cs) = false.
Proof.
  induction cs as [|c cs IH]; intros H; [reflexivity|].
  inversion H as [|? ? Hc Hcs]; subst. simpl.
  rewrite (IH Hcs), orb_false_r.
  destruct (Ascii.eqb_spec c backslash) as [E|]; [|reflexivity].
  exfalso. exact (escaped_mark_not_backslash c Hc E).
Qed.

(** The text [\\.]: a backslash, then an escaped period. *)
Definition backslash_escaped_dot : string :=
  String backslash (String backslash ".").

(** Claim C3, refuted: unescaping is not idempotent; on [\\.] the first
    application gives [\.] and the second gives [.]. *)
Lemma C3_unescape_not_idempotent :
  unescapeDayoneMarkdown backslash_escaped_dot = String backslash "." /\
  unescapeDayoneMarkdown (unescapeDayoneMarkdown backslash_escaped_dot) = "." /\
  unescapeDayoneMarkdown (unescapeDayoneMarkdown backslash_escaped_dot)
    <> unescapeDayoneMarkdown backslash_escaped_dot.
Proof. split; [reflexivity|]. split; [reflexivity|]. vm_compute. discriminate. Qed.

(** Claim C3, as the code behaves: a text made only of recognized
    backslash-escaped punctuation marks unescapes, in one application, to
    the marks without backslashes, and a second application changes
    nothing; a text without any backslash is left unchanged. *)
Theorem C3_unescape_escaped_marks (cs : list ascii) :
  Forall (fun c => In c escaped_marks) cs ->
  unescapeDayoneMarkdown (escape_all cs) = string_of_list_ascii cs /\
  unescapeDayoneMarkdown (unescapeDayoneMarkdown (escape_all cs))
    = unescapeDayoneMarkdown (escape_all cs) /\
  (forall t, has_backslash t = false -> unescapeDayoneMarkdown t = t).
Proof.
  intros Hcs.
  assert (H1 : unescapeDayoneMarkdown (escape_all cs) = string_of_list_ascii cs).
  { unfold unescapeDayoneMarkdown. rewrite <- render_esc.
    rewrite unescape_render.
    - rewrite <- render_bare. f_equal. rewrite map_map.
      apply map_ext_in. intros c Hc.
      apply escaped_mark_unescaped. rewrite List.Forall_forall in Hcs. now apply Hcs.
    - apply Forall_map. eapply Forall_impl; [exact Hcs|].
      intros c Hc. simpl. now apply escaped_mark_not_backslash. }
  split; [exact H1|]. split.
  - rewrite H1. apply unescape_no_backslash. now apply no_backslash_marks.
  - exact unescape_no_backslash.
Qed.

Lemma C3_unescape_escaped_marks_witness :
  Forall (fun c => In c escaped_marks) ["."; "("; "!"]%char /\
  unescapeDayoneMarkdown (escape_all ["."; "("; "!"]%char) = ".(!".
Proof.
  assert (H : Forall (fun c => In c escaped_marks) ["."; "("; "!"]%char).
  { repeat (apply List.Forall_cons; [cbn; repeat (first [left; reflexivity | right])|]).
    apply List.Forall_nil. }
  split; [exact H|].
  exact (proj1 (C3_unescape_escaped_marks _ H)).
Defined.

(* ------------------------------------------------------------------ *)
(** * Media index, per-entry failures and weather *)

Definition mk_attachment (id m : string) (t : option string) : attachment :=
  {| identifier := id; md5 := m; type := t; cameraMake := None; cameraModel := None;
     lensModel := None; date := None; width := None; height := None |}.

(** An entry with one photo, one video, one audio and one PDF attachment,
    each carrying an explicit [type]. *)
Definition entry_with_kinds : entry :=
  {| uuid := Some dup_id; text := None; creationDate := Some "2024-01-15T10:00:00Z";
     modifiedDate := None; timeZone := None; starred := None; isPinned := None;
     isAllDay := None; tags := None; entry_location := None; entry_weather := None;
     userActivity := None; creationDevice := None; creationDeviceType := None;
     creationDeviceModel := None; creationOSName := None; creationOSVersion := None;
     photos := Some [mk_attachment "A1" "p" (Some "heic")];
     videos := Some [mk_attachment "B2" "v" (Some "mp4")];
     audios := Some [mk_attachment "C3" "a" (Some "aac")];
     pdfAttachments := Some [mk_attachment "D4" "d" (Some "x-pdf")];
     editingTime := None |}.

(** Claim C5 (code defect): the explicit [type] overrides the default kind
    of photos, videos and audios, but a PDF attachment is registered with
    kind [pdf] whatever its [type] field says. *)
Theorem C5_pdf_kind_not_overridden :
  photoMap (buildPhotoMap (new_converter false) entry_with_kinds) !! "A1"
    = Some {| media_md5 := "p"; media_type := "heic" |} /\
  photoMap (buildPhotoMap (new_converter false) entry_with_kinds) !! "B2"
    = Some {| media_md5 := "v"; media_type := "mp4" |} /\
  photoMap (buildPhotoMap (new_converter false) entry_with_kinds) !! "C3"
    = Some {| media_md5 := "a"; media_type := "aac" |} /\
  photoMap (buildPhotoMap (new_converter false) entry_with_kinds) !! "D4"
    = Some {| media_md5 := "d"; media_type := "pdf" |}.
Proof. vm_compute. repeat split. Qed.

(** An entry with neither an identifier nor a body. *)
Definition entry_without_id : entry := mk_entry None None (Some "2024-01-15T10:00:00Z").

(** Claim C6 (code defect): an entry with neither a title nor an
    identifier makes [generateFilename] read [entry.uuid.slice], a
    TypeError that aborts the whole conversion; the well-formed entry after
    it is never converted, although on its own it converts. *)
Theorem C6_missing_id_aborts_run :
  convert (new_converter false)
    [journal_file (JValue (Some [entry_without_id; morning]))] = Throw TypeError /\
  generateFilename (new_converter false) entry_without_id = Throw TypeError /\
  is_ok (convert (new_converter false) [journal_file (JValue (Some [morning]))]) = true.
Proof. vm_compute. repeat split. Qed.

Definition weather_with_moon (code : string) : weather :=
  {| conditionsDescription := None; temperatureCelsius := None;
     relativeHumidity := None; pressureMB := None; windSpeedKPH := None;
     windBearing := None; visibilityKM := None; moonPhaseCode := Some code |}.

Definition entry_with_weather (w : weather) : entry :=
  {| uuid := Some dup_id; text := Some "Hello"; creationDate := Some "2024-01-15T10:00:00Z";
     modifiedDate := None; timeZone := None; starred := None; isPinned := None;
     isAllDay := None; tags := None; entry_location := None; entry_weather := Some w;
     userActivity := None; creationDevice := None; creationDeviceType := None;
     creationDeviceModel := None; creationOSName := None; creationOSVersion := None;
     photos := None; videos := None; audios := None; pdfAttachments := None;
     editingTime := None |}.

(** Claim C9 (code defect): [MOON_PHASES[code]] also finds the properties
    inherited from [Object.prototype].  The codes [__proto__] and
    [toString] are not in the table, yet the weather record gets a
    [moon_phase] (Object.prototype itself, or a function, which js-yaml
    then refuses, aborting the run); an unknown code such as [blue] is
    omitted as intended. *)
Theorem C9_inherited_moon_phase_kept :
  assoc_str "__proto__" MOON_PHASES = None /\
  assoc_str "toString" MOON_PHASES = None /\
  option_map w_moon_phase (build_weather (weather_with_moon "__proto__")) = Some (Some PProto) /\
  option_map w_moon_phase (build_weather (weather_with_moon "toString"))
    = Some (Some (PFun "toString")) /\
  build_weather (weather_with_moon "blue") = None /\
  convert (new_converter false)
    [journal_file (JValue (Some [entry_with_weather (weather_with_moon "toString")]))]
    = Throw YAMLException.
Proof. vm_compute. repeat split. Qed.

(* ------------------------------------------------------------------ *)
(** * Filenames *)

Fixpoint no_hostile (s : string) : bool :=
  match s with
  | EmptyString => true
  | String c r => negb (is_hostile c) && no_hostile r
  end.

Lemma no_hostile_app a b : no_hostile (a ++ b) = no_hostile a && no_hostile b.
Proof.
  induction a as [|c a IH]; [reflexivity|].
  rewrite str_app_cons. simpl. rewrite IH. apply andb_assoc.
Qed.

Lemma no_hostile_replace s : no_hostile (replace_hostile s) = true.
Proof.
  induction s as [|c s IH]; [reflexivity|]. simpl. rewrite IH, andb_true_r.
  destruct (is_hostile c) eqn:Hc; [reflexivity|]. now rewrite Hc.
Qed.

Lemma no_hostile_collapse b s : no_hostile s = true -> no_hostile (collapse_ws_go b s) = true.
Proof.
  revert b. induction s as [|c s IH]; intros b H; [reflexivity|].
  simpl in H. apply andb_prop in H as [Hc Hs]. simpl.
  destruct (is_ws c), b; simpl; rewrite ?IH, ?Hc; auto.
Qed.

Lemma no_hostile_trim_start s : no_hostile s = true -> no_hostile (trim_start s) = true.
Proof.
  induction s as [|c s IH]; intros H; [reflexivity|].
  simpl. destruct (is_ws c); [|exact H].
  simpl in H. apply andb_prop in H as [_ Hs]. auto.
Qed.

Lemma no_hostile_trim_end s : no_hostile s = true -> no_hostile (trim_end s) = true.
Proof.
  induction s as [|c s IH]; intros H; [reflexivity|].
  simpl in H. apply andb_prop in H as [Hc Hs]. simpl.
  destruct (is_ws c && String.eqb (trim_end s) ""); [reflexivity|].
  simpl. rewrite Hc. auto.
Qed.

Lemma no_hostile_substring n m s : no_hostile s = true -> no_hostile (substring n m s) = true.
Proof.
  revert n m. induction s as [|c s IH]; intros n m H.
  - destruct n, m; reflexivity.
  - cbn [no_hostile] in H. apply andb_prop in H as [Hc Hs].
    destruct n as [|n]; [destruct m as [|m]|]; cbn [substring].
    + reflexivity.
    + cbn [no_hostile]. rewrite Hc. cbn [andb]. auto.
    + auto.
Qed.

Lemma length_slice0 n s : (String.length (slice0 n s) <= n)%nat.
Proof.
  unfold slice0. revert n. induction s as [|c s IH]; intros n.
  - destruct n; simpl; lia.
  - destruct n as [|n]; simpl; [lia|]. specialize (IH n). lia.
Qed.

Lemma sanitize_title_safe t :
  no_hostile (sanitize_title t) = true /\ (String.length (sanitize_title t) <= 50)%nat.
Proof.
  split; [|apply length_slice0].
  unfold sanitize_title, slice0, trim.
  apply no_hostile_substring, no_hostile_trim_end, no_hostile_trim_start,
        no_hostile_collapse, no_hostile_replace.
Qed.

Lemma digit_not_hostile k : (k < 10)%nat -> is_hostile (ascii_of_nat (48 + k)) = false.
Proof. intros Hk. do 10 (destruct k as [|k]; [reflexivity|]). lia. Qed.

Lemma no_hostile_pad_dec w n acc :
  no_hostile acc = true -> no_hostile (pad_dec w n acc) = true.
Proof.
  revert n acc. induction w as [|w IH]; intros n acc H; [exact H|].
  cbn [pad_dec]. apply IH. cbn [no_hostile]. rewrite H, andb_true_r.
  rewrite digit_not_hostile; [reflexivity|].
  assert (0 <= n mod 10 < 10)%Z by (apply Z.mod_pos_bound; lia). lia.
Qed.

Lemma iso_date_part_safe t d : iso_date_part t = Ok d -> no_hostile d = true.
Proof.
  unfold iso_date_part. destruct t as [t|]; [|discriminate].
  destruct (civil_from_days (t / 86400000)) as [[y m] dd]. intros H.
  assert (Hd : iso_year y ++ "-" ++ pad_dec 2 m "" ++ "-" ++ pad_dec 2 dd "" = d)
    by congruence.
  subst d. rewrite !no_hostile_app.
  assert (Hy : no_hostile (iso_year y) = true).
  { unfold iso_year. destruct ((0 <=? y)%Z && (y <=? 9999)%Z).
    - now apply no_hostile_pad_dec.
    - rewrite no_hostile_app.
      destruct (y <? 0)%Z; cbn [no_hostile is_hostile code]; now apply no_hostile_pad_dec. }
  rewrite Hy. rewrite !no_hostile_pad_dec by reflexivity. reflexivity.
Qed.

Lemma uuid_prefix_Ok e p : uuid_prefix e = Ok p -> exists u, uuid e = Some u /\ p = slice0 8 u.
Proof.
  unfold uuid_prefix. destruct (uuid e) as [u|]; [|discriminate].
  intros H. injection H as <-. eauto.
Qed.

Lemma base_filename_cases e dateStr base :
  match extractTitle (text e) with
  | Some t =>
      if negb (String.eqb t "") then Ok (dateStr ++ " " ++ sanitize_title t)
      else p ← uuid_prefix e; Ok (dateStr ++ " " ++ p)
  | None => p ← uuid_prefix e; Ok (dateStr ++ " " ++ p)
  end = Ok base ->
  exists t, base = dateStr ++ " " ++ t /\ (String.length t <= 50)%nat /\
    ((exists title, extractTitle (text e) = Some title /\ title <> "" /\
                    t = sanitize_title title /\ no_hostile t = true) \/
     ((extractTitle (text e) = None \/ extractTitle (text e) = Some "") /\
      exists u, uuid e = Some u /\ t = slice0 8 u)).
Proof.
  intros H.
  assert (Hfb : forall p, uuid_prefix e = Ok p ->
            (String.length p <= 50)%nat /\ exists u, uuid e = Some u /\ p = slice0 8 u).
  { intros p Hp. apply uuid_prefix_Ok in Hp as (u & Hue & ->).
    split; [pose proof (length_slice0 8 u); lia|]. eauto. }
  destruct (extractTitle (text e)) as [t|] eqn:Het.
  - destruct (String.eqb_spec t "") as [->|Hne]; cbn [negb] in H.
    + inv_bind H. injection H as <-. exists a. destruct (Hfb a Ha) as [Hl Hu].
      split; [reflexivity|]. split; [exact Hl|]. right. auto.
    + injection H as <-. exists (sanitize_title t).
      destruct (sanitize_title_safe t) as [Hh Hl].
      split; [reflexivity|]. split; [exact Hl|]. left. eauto.
  - inv_bind H. injection H as <-. exists a. destruct (Hfb a Ha) as [Hl Hu].
    split; [reflexivity|]. split; [exact Hl|]. right. auto.
Qed.

(** Claim C7, as the code behaves: a filename produced by
    [generateFilename] is [<date> <title portion>.md] or
    [<date> <title portion> (<uuid prefix>).md], where the uuid prefix is
    the first 8 characters of the identifier and the title portion has at
    most 50 characters: the sanitized title when the entry has a title,
    otherwise the uuid prefix.  The date and the sanitized title contain
    none of the characters / \ : * ? < > | or the double quote; the uuid
    prefix is not sanitized, so the filename is free of them exactly when
    the uuid prefixes it includes are. *)
Theorem C7_filename_safe `{DP : DateParse} (st : state) (e : entry) (fn : string) (st' : state) :
  generateFilename st e = Ok (fn, st') ->
  exists dateStr t,
    iso_date_part (new_Date (creationDate e)) = Ok dateStr /\
    no_hostile dateStr = true /\
    (String.length t <= 50)%nat /\
    ((exists title, extractTitle (text e) = Some title /\ title <> "" /\
                    t = sanitize_title title /\ no_hostile t = true) \/
     ((extractTitle (text e) = None \/ extractTitle (text e) = Some "") /\
      exists u, uuid e = Some u /\ t = slice0 8 u)) /\
    ((fn = dateStr ++ " " ++ t ++ ".md" /\ no_hostile fn = no_hostile t) \/
     (exists u, uuid e = Some u /\
        fn = dateStr ++ " " ++ t ++ " (" ++ slice0 8 u ++ ").md" /\
        no_hostile fn = no_hostile t && no_hostile (slice0 8 u))).
Proof.
  intros H. unfold generateFilename in H.
  inv_bind H. rename a into dateStr.
  inv_bind H. rename a into base.
  destruct (base_filename_cases e dateStr base Ha0) as (t & -> & Hlen & Ht).
  pose proof (iso_date_part_safe _ _ Ha) as Hd.
  inv_bind H. injection H as -> _.
  exists dateStr, t. split; [exact Ha|]. split; [exact Hd|]. split; [exact Hlen|].
  split; [exact Ht|].
  destruct (decide _) as [_|_].
  - inv_bind Ha1. injection Ha1 as <-.
    apply uuid_prefix_Ok in Ha2 as (u & Hue & ->).
    right. exists u. split; [exact Hue|]. split; [now rewrite !str_app_assoc|].
    rewrite !no_hostile_app, Hd. cbn. now rewrite !andb_true_r.
  - injection Ha1 as <-. left. split; [now rewrite !str_app_assoc|].
    rewrite !no_hostile_app, Hd. cbn. now rewrite !andb_true_r.
Qed.

Definition morning_filename : string := "2024-01-15 Morning thoughts.md".

Lemma C7_filename_safe_witness :
  generateFilename (new_converter false) morning
    = Ok (morning_filename,
          set_usedFilenames (new_converter false) {[ morning_filename ]}) /\
  exists dateStr t,
    iso_date_part (new_Date (creationDate morning)) = Ok dateStr /\
    no_hostile dateStr = true /\ (String.length t <= 50)%nat.
Proof.
  assert (H : generateFilename (new_converter false) morning
              = Ok (morning_filename,
                    set_usedFilenames (new_converter false) {[ morning_filename ]})).
  { vm_compute. reflexivity. }
  split; [exact H|].
  destruct (C7_filename_safe _ _ _ _ H) as (d & t & Hd & Hh & Hl & _).
  exists d, t. auto.
Defined.

(** An entry with no title whose identifier contains a slash and a colon. *)
Definition entry_hostile_id : entry :=
  mk_entry (Some "ab/cd:ef-0123") None (Some "2024-01-15T10:00:00Z").

(** Claim C7, refuted: without a title the filename embeds the first 8
    characters of the identifier unsanitized. *)
Lemma C7_identifier_not_sanitized :
  match generateFilename (new_converter false) entry_hostile_id with
  | Ok (fn, _) => Some fn
  | Throw _ => None
  end = Some "2024-01-15 ab/cd:ef.md" /\
  no_hostile "2024-01-15 ab/cd:ef.md" = false.
Proof. vm_compute. split; reflexivity. Qed.

(* ------------------------------------------------------------------ *)
(** * Deduplication disabled *)

(** Every entry converted and written, with no duplicate check: what the
    loop should amount to when [allowDuplicates] is set. *)
Fixpoint convert_all `{DP : DateParse} (r : run) (es : list entry) : res run :=
  match es with
  | [] => Ok r
  | e :: es' =>
      '(filename, content, st1) ← convertEntry (run_state r) e;
      convert_all {| run_state := st1;
                     run_zip := zip_file ("entries/" ++ filename) content (run_zip r);
                     run_converted := S (run_converted r) |} es'
  end.

Lemma convert_all_counts `{DP : DateParse} es r r' :
  convert_all r es = Ok r' ->
  run_converted r' = (run_converted r + List.length es)%nat /\
  skippedDuplicates (run_state r') = skippedDuplicates (run_state r).
Proof.
  revert r. induction es as [|e es IH]; intros r H; simpl in H.
  - injection H as <-. simpl. split; [lia|reflexivity].
  - inv_bind H. destruct a as [[fn c] st1].
    destruct (IH _ H) as [Hc Hs]. simpl in Hc, Hs.
    destruct (convertEntry_frame _ _ _ _ _ Ha) as (_ & _ & Hsk).
    simpl. split; [lia|congruence].
Qed.

(** Claim C4, as the code behaves: with deduplication disabled the loop is
    the plain conversion of every entry in turn (each converted, counted and
    written to [entries/<filename>]); a run that completes has counted every
    entry as converted and skipped none. *)
Theorem C4_no_dedup_converts_all `{DP : DateParse} (r : run) (es : list entry) :
  allowDuplicates (run_state r) = true ->
  convert_entries r es = convert_all r es /\
  (forall r', convert_entries r es = Ok r' ->
     run_converted r' = (run_converted r + List.length es)%nat /\
     skippedDuplicates (run_state r') = skippedDuplicates (run_state r)).
Proof.
  intros Hallow.
  assert (Heq : convert_entries r es = convert_all r es).
  { revert r Hallow. induction es as [|e es IH]; intros r Hallow; [reflexivity|].
    simpl. unfold convert_step.
    assert (Hns : shouldSkipDuplicate (run_state r) e = false)
      by (unfold shouldSkipDuplicate; now rewrite Hallow).
    rewrite Hns.
    destruct (convertEntry (run_state r) e) as [[[fn c] st1]|ex] eqn:Hc; [|reflexivity].
    simpl. destruct (convertEntry_frame _ _ _ _ _ Hc) as (Hal & _ & _).
    rewrite Hal, Hallow. apply IH. simpl. congruence. }
  split; [exact Heq|]. intros r' H. rewrite Heq in H. now apply convert_all_counts.
Qed.

Lemma C4_no_dedup_converts_all_witness :
  allowDuplicates (run_state (start_run (new_converter true))) = true /\
  convert_entries (start_run (new_converter true)) [morning; morning]
    = convert_all (start_run (new_converter true)) [morning; morning].
Proof.
  split; [reflexivity|].
  exact (proj1 (C4_no_dedup_converts_all (start_run (new_converter true))
                  [morning; morning] eq_refl)).
Defined.

(** Claim C4, refuted: with deduplication disabled, three identical entries
    are all converted and counted, but the second and third share the
    disambiguated filename, so the archive holds two entry files. *)
Lemma C4_three_entries_two_files :
  match convert (new_converter true)
          [journal_file (JValue (Some [morning; morning; morning]))] with
  | Ok (z, _) => Some (List.map fst z)
  | Throw _ => None
  end = Some ["entries/2024-01-15 Morning thoughts.md";
              "entries/2024-01-15 Morning thoughts (01234567).md"] /\
  run_counts (convert_entries (start_run (new_converter true)) [morning; morning; morning])
    = Some (3%nat, 0%nat).
Proof. vm_compute. split; reflexivity. Qed.

(* ------------------------------------------------------------------ *)
(** * Reading the journal file *)

(** A computation that does not end in an [Error] with a message: the only
    such throw of [convert] is the missing-JSON-file one. *)
Definition no_msg {A} (m : res A) : Prop :=
  match m with Throw (Error _) => False | _ => True end.

Lemma no_msg_bind {A B} (m : res A) (f : A -> res B) :
  no_msg m -> (forall a, no_msg (f a)) -> no_msg (m ≫= f).
Proof. destruct m as [a|[| | | |s]]; simpl; auto. Qed.

Lemma no_msg_ret {A} (a : A) : no_msg (Ok a).
Proof. exact I. Qed.

Lemma no_msg_iso_date_part t : no_msg (iso_date_part t).
Proof.
  unfold iso_date_part. destruct t as [t|]; [|exact I].
  destruct (civil_from_days (t / 86400000)) as [[y m] d]. exact I.
Qed.

Lemma no_msg_uuid_prefix e : no_msg (uuid_prefix e).
Proof. unfold uuid_prefix. destruct (uuid e); exact I. Qed.

Lemma no_msg_generateFilename `{DP : DateParse} st e : no_msg (generateFilename st e).
Proof.
  unfold generateFilename.
  apply no_msg_bind; [apply no_msg_iso_date_part|intros d].
  apply no_msg_bind.
  - destruct (extractTitle (text e)) as [t|];
      [destruct (negb (String.eqb t ""))|];
      try apply no_msg_ret;
      apply no_msg_bind; auto using no_msg_uuid_prefix, no_msg_ret.
  - intros b. apply no_msg_bind; [|intros; apply no_msg_ret].
    destruct (decide _); [|apply no_msg_ret].
    apply no_msg_bind; auto using no_msg_uuid_prefix, no_msg_ret.
Qed.

Lemma no_msg_convertEntry `{DP : DateParse} st e : no_msg (convertEntry st e).
Proof.
  unfold convertEntry.
  apply no_msg_bind.
  - unfold yaml_dump_check.
    destruct (fm_weather_ _) as [w|]; [|exact I].
    destruct (w_moon_phase w) as [[]|]; exact I.
  - intros _. apply no_msg_bind; [apply no_msg_generateFilename|].
    intros [fn st1]. apply no_msg_ret.
Qed.

Lemma no_msg_convert_entries `{DP : DateParse} r es : no_msg (convert_entries r es).
Proof.
  revert r. induction es as [|e es IH]; intros r; simpl; [exact I|].
  apply no_msg_bind; [|exact IH].
  unfold convert_step. destruct (shouldSkipDuplicate _ _); [exact I|].
  apply no_msg_bind; [apply no_msg_convertEntry|].
  intros [[fn c] st1]. apply no_msg_ret.
Qed.

(** Claim C10, as the code behaves: when the first [.json] file of the
    archive parses to a non-null value without a (truthy) [entries] field,
    the conversion succeeds with no entry and only the copied attachments,
    leaving the state as it was; when it parses to [null], reading
    [.entries] raises a TypeError; and the [No JSON file found in ZIP]
    error is raised exactly when no file name ends in [.json]. *)
Theorem C10_no_entries_array `{DP : DateParse} (st : state) (input : list zip_entry) :
  (forall jf rest,
     List.filter (fun f => ends_with ".json" (zname f)) input = jf :: rest ->
     (zjson jf = Some (JValue None) -> convert st input = Ok (copy_media input, st)) /\
     (zjson jf = Some JNull -> convert st input = Throw TypeError)) /\
  (convert st input = Throw (Error "No JSON file found in ZIP") <->
   List.filter (fun f => ends_with ".json" (zname f)) input = []).
Proof.
  split.
  - intros jf rest Hf. unfold convert. rewrite Hf.
    split; intros Hj; rewrite Hj; reflexivity.
  - unfold convert. split.
    + destruct (List.filter _ input) as [|jf rest]; [reflexivity|].
      destruct (zjson jf) as [[|es]|]; simpl; try discriminate.
      intros H.
      pose proof (no_msg_convert_entries
                    {| run_state := st; run_zip := copy_media input; run_converted := 0 |}
                    (opt_list es)) as Hn.
      destruct (convert_entries _ _) as [r|ex]; simpl in H; [discriminate|].
      injection H as ->. destruct Hn.
    + intros ->. reflexivity.
Qed.

(** Claim C10, refuted: the archive has a JSON file whose parsed record is
    [null], so it has no entries array, and the conversion raises instead of
    completing with zero entries. *)
Lemma C10_null_journal_aborts :
  convert (new_converter false) [journal_file JNull] = Throw TypeError.
Proof. reflexivity. Qed.

(* ================================================================== *)
(** * Further properties of the converter *)

(** Every character of a string satisfies [f]. *)
Fixpoint str_all (f : ascii -> bool) (s : string) : bool :=
  match s with
  | EmptyString => true
  | String c r => f c && str_all f r
  end.

(** [str_or] with an empty default returns the string itself. *)
Lemma str_or_empty (x : string) : str_or (Some x) "" = x.
Proof. simpl. destruct (String.eqb_spec x "") as [->|]; reflexivity. Qed.

Lemma str_app_inv_l (p a b : string) : p ++ a = p ++ b -> a = b.
Proof.
  induction p as [|c p IH]; [auto|].
  rewrite !str_app_cons. intros H. injection H. exact IH.
Qed.

(* ------------------------------------------------------------------ *)
(** ** [convertImageReferences] on text without a placeholder *)

Lemma strip_prefix_starts p s r : strip_prefix p s = Some r -> starts_with p s = true.
Proof.
  revert s. induction p as [|a p IH]; intros s H; [destruct s; reflexivity|].
  destruct s as [|b s]; [discriminate|]. cbn [strip_prefix] in H. cbn [starts_with].
  destruct (Ascii.eqb a b); [|discriminate]. simpl. eauto.
Qed.

Lemma match_moment_starts s x : match_moment s = Some x -> starts_with moment_prefix s = true.
Proof.
  unfold match_moment. destruct (strip_prefix moment_prefix s) eqn:Hs; [|discriminate].
  intros _. eapply strip_prefix_starts. exact Hs.
Qed.

Lemma includes_cons p c r : includes p (String c r) = starts_with p (String c r) || includes p r.
Proof. reflexivity. Qed.

Lemma convertImageReferences_no_prefix_text (m : gmap string media) (t : string) :
  includes moment_prefix t = false -> convertImageReferences m t = t.
Proof.
  induction t as [|c r IH]; intros H; [reflexivity|].
  rewrite includes_cons in H. apply orb_false_iff in H as [Hs Hr].
  rewrite convertImageReferences_step.
  destruct (match_moment (String c r)) as [x|] eqn:Hm.
  - apply match_moment_starts in Hm. congruence.
  - f_equal. now apply IH.
Qed.

(** [convertImageReferences] leaves a text alone when the placeholder
    prefix [![](dayone-moment://] occurs nowhere in it, whatever the
    media index. *)
Theorem convertImageReferences_no_prefix (m : gmap string media) (t : string) :
  includes moment_prefix t = false -> convertImageReferences m t = t.
Proof. exact (convertImageReferences_no_prefix_text m t). Qed.

Lemma convertImageReferences_no_prefix_witness :
  includes moment_prefix "see ![](photo.jpg)" = false /\
  convertImageReferences ∅ "see ![](photo.jpg)" = "see ![](photo.jpg)".
Proof.
  assert (H : includes moment_prefix "see ![](photo.jpg)" = false) by reflexivity.
  split; [exact H|]. exact (convertImageReferences_no_prefix ∅ _ H).
Defined.

(* ------------------------------------------------------------------ *)
(** ** [unescapeDayoneMarkdown] only deletes backslashes *)

(** The text without its backslashes. *)
Fixpoint strip_backslashes (s : string) : string :=
  match s with
  | EmptyString => EmptyString
  | String c r =>
      if Ascii.eqb c backslash then strip_backslashes r else String c (strip_backslashes r)
  end.

Lemma unescape_char_strip c s :
  c <> backslash ->
  strip_backslashes (unescape_char c s) = strip_backslashes s /\
  (String.length (unescape_char c s) <= String.length s)%nat.
Proof.
  intros Hc.
  assert (Hcb : Ascii.eqb c backslash = false) by now apply Ascii.eqb_neq.
  enough (H : forall s,
    (strip_backslashes (unescape_char c s) = strip_backslashes s /\
     (String.length (unescape_char c s) <= String.length s)%nat) /\
    (forall a, strip_backslashes (unescape_char c (String a s)) = strip_backslashes (String a s) /\
     (String.length (unescape_char c (String a s)) <= String.length (String a s))%nat))
    by apply H.
  clear s. induction s as [|b r IH].
  - split; [split; [reflexivity|cbn; lia]|]. intros a. split; [reflexivity|cbn; lia].
  - destruct IH as [[IHs IHl] IHa]. split; [apply IHa|].
    intros a. rewrite unescape_char_cons2.
    destruct (Ascii.eqb a backslash) eqn:Ha; destruct (Ascii.eqb b c) eqn:Hb;
      cbn [andb].
    + apply Ascii.eqb_eq in Ha, Hb. subst a b.
      cbn [strip_backslashes String.length]. rewrite Hcb, Ascii.eqb_refl, IHs.
      split; [reflexivity|lia].
    + destruct (IHa b) as [E L]. cbn [strip_backslashes String.length] in *.
      rewrite Ha, E. split; [reflexivity|lia].
    + destruct (IHa b) as [E L]. cbn [strip_backslashes String.length] in *.
      rewrite Ha, E. split; [reflexivity|lia].
    + destruct (IHa b) as [E L]. cbn [strip_backslashes String.length] in *.
      rewrite Ha, E. split; [reflexivity|lia].
Qed.

(** [unescapeDayoneMarkdown] only deletes backslashes: with all
    backslashes removed, its result and its argument are the same text,
    and the result is never longer. *)
Theorem unescape_only_drops_backslashes (t : string) :
  strip_backslashes (unescapeDayoneMarkdown t) = strip_backslashes t /\
  (String.length (unescapeDayoneMarkdown t) <= String.length t)%nat.
Proof.
  unfold unescapeDayoneMarkdown.
  assert (Hm : Forall (fun c => c <> backslash) escaped_marks).
  { apply List.Forall_forall. intros c Hc. now apply escaped_mark_not_backslash. }
  revert Hm t. generalize escaped_marks as marks. intros marks Hm.
  induction Hm as [|c cs Hc Hcs IH]; intros t; [cbn [fold_left]; split; [reflexivity|lia]|].
  cbn [fold_left]. destruct (IH (unescape_char c t)) as [E L].
  destruct (unescape_char_strip c t Hc) as [E' L'].
  split; [congruence|lia].
Qed.

(* ------------------------------------------------------------------ *)
(** ** [sanitizeTag] *)

(** The characters a sanitized tag is made of: lowercase letters, digits,
    underscore and hyphen. *)
Definition is_tag_char (c : ascii) : bool :=
  let n := code c in
  (Nat.leb 48 n && Nat.leb n 57) || (Nat.leb 97 n && Nat.leb n 122)
  || Nat.eqb n 95 || Nat.eqb n 45.

(** The character mapping of [to_lower]. *)
Definition lower_char (c : ascii) : ascii :=
  let n := code c in
  if Nat.leb 65 n && Nat.leb n 90 then ascii_of_nat (n + 32) else c.

Lemma to_lower_cons c r : to_lower (String c r) = String (lower_char c) (to_lower r).
Proof. reflexivity. Qed.

Ltac all_ascii c :=
  destruct c as [[] [] [] [] [] [] [] []]; vm_compute; auto; try discriminate.

Lemma lower_word_tag c : is_word_or_hyphen c = true -> is_tag_char (lower_char c) = true.
Proof. all_ascii c. Qed.

Lemma tag_char_not_ws c : is_tag_char c = true -> is_ws c = false.
Proof. all_ascii c. Qed.

Lemma tag_char_word c : is_tag_char c = true -> is_word_or_hyphen c = true.
Proof. all_ascii c. Qed.

Lemma tag_char_lower c : is_tag_char c = true -> lower_char c = c.
Proof. all_ascii c. Qed.

Lemma keep_word_chars_word s : str_all is_word_or_hyphen (keep_word_chars s) = true.
Proof.
  induction s as [|c r IH]; [reflexivity|]. cbn [keep_word_chars].
  destruct (is_word_or_hyphen c) eqn:Hc; [cbn [str_all]; now rewrite Hc|exact IH].
Qed.

Lemma to_lower_tag s : str_all is_word_or_hyphen s = true -> str_all is_tag_char (to_lower s) = true.
Proof.
  induction s as [|c r IH]; [reflexivity|]. cbn [str_all]. rewrite to_lower_cons.
  intros H. apply andb_prop in H as [Hc Hr]. cbn [str_all].
  rewrite lower_word_tag by exact Hc. simpl. auto.
Qed.

Lemma tag_fixed s :
  str_all is_tag_char s = true ->
  (forall b, ws_to_hyphen_go b s = s) /\ keep_word_chars s = s /\ to_lower s = s.
Proof.
  induction s as [|c r IH]; [repeat split|].
  cbn [str_all]. intros H. apply andb_prop in H as [Hc Hr].
  destruct (IH Hr) as (Hw & Hk & Hl). split; [|split].
  - intros b. cbn [ws_to_hyphen_go]. rewrite tag_char_not_ws by exact Hc. now rewrite Hw.
  - cbn [keep_word_chars]. rewrite tag_char_word by exact Hc. now rewrite Hk.
  - rewrite to_lower_cons, tag_char_lower by exact Hc. now rewrite Hl.
Qed.

(** [sanitizeTag] returns only lowercase letters, digits, underscores and
    hyphens (so no whitespace), and sanitizing an already sanitized tag
    changes nothing. *)
Theorem sanitizeTag_charset_idempotent (tag : string) :
  str_all is_tag_char (sanitizeTag tag) = true /\
  sanitizeTag (sanitizeTag tag) = sanitizeTag tag.
Proof.
  assert (H : str_all is_tag_char (sanitizeTag tag) = true)
    by (apply to_lower_tag, keep_word_chars_word).
  split; [exact H|].
  destruct (tag_fixed _ H) as (Hw & Hk & Hl).
  unfold sanitizeTag at 1. now rewrite Hw, Hk, Hl.
Qed.

(* ------------------------------------------------------------------ *)
(** ** Deduplication: record then check *)

Lemma recordEntry_allowDuplicates st e : allowDuplicates (recordEntry st e) = allowDuplicates st.
Proof. unfold recordEntry. destruct (negb _); reflexivity. Qed.

Lemma recordEntry_skip_lookup st e e' u :
  allowDuplicates st = false -> uuid e = Some u -> u <> "" -> uuid e' = Some u ->
  shouldSkipDuplicate (recordEntry st e) e' =
    String.eqb (hashString (text_or_empty e)) (hashString (text_or_empty e')).
Proof.
  intros Hallow Hu Hne Hu'.
  rewrite (shouldSkipDuplicate_seen _ e' u); [|now rewrite recordEntry_allowDuplicates|exact Hu'|exact Hne].
  unfold recordEntry. rewrite Hu. cbn [str_truthy str_or negb].
  destruct (String.eqb_spec u "") as [|_]; [contradiction|]. cbn [negb].
  simpl. now rewrite lookup_insert_eq.
Qed.

(** With deduplication enabled, once [recordEntry] has recorded an entry
    with a non-empty identifier, an entry with the same identifier is
    skipped exactly when the fingerprints of the two bodies are equal. *)
Theorem recordEntry_then_shouldSkip (st : state) (e e' : entry) (u : string) :
  allowDuplicates st = false -> uuid e = Some u -> u <> "" -> uuid e' = Some u ->
  shouldSkipDuplicate (recordEntry st e) e' =
    String.eqb (hashString (text_or_empty e)) (hashString (text_or_empty e')).
Proof. exact (recordEntry_skip_lookup st e e' u). Qed.

Lemma recordEntry_then_shouldSkip_witness :
  allowDuplicates (new_converter false) = false /\ uuid morning = Some dup_id /\
  dup_id <> "" /\
  shouldSkipDuplicate (recordEntry (new_converter false) morning) morning = true.
Proof.
  assert (H1 : allowDuplicates (new_converter false) = false) by reflexivity.
  assert (H2 : uuid morning = Some dup_id) by reflexivity.
  assert (H3 : dup_id <> "") by discriminate.
  split; [exact H1|]. split; [exact H2|]. split; [exact H3|].
  rewrite (recordEntry_then_shouldSkip _ _ _ dup_id H1 H2 H3 H2).
  apply String.eqb_refl.
Defined.

(* ------------------------------------------------------------------ *)
(** ** [hashString] collisions *)

Lemma to_int32_shift x : exists k, to_int32 x = (x + k * 2 ^ 32)%Z.
Proof.
  unfold to_int32. pose proof (Z.mod_eq x (2 ^ 32)) as E.
  destruct (2 ^ 31 <=? x mod 2 ^ 32)%Z.
  - exists (- (x / 2 ^ 32) - 1)%Z. rewrite E by lia. ring.
  - exists (- (x / 2 ^ 32))%Z. rewrite E by lia. ring.
Qed.

Lemma to_int32_cong x y k : x = (y + k * 2 ^ 32)%Z -> to_int32 x = to_int32 y.
Proof. intros ->. unfold to_int32. now rewrite Z_mod_plus_full. Qed.

(** One step of the hash loop: [hash * 31 + char], wrapped to 32 bits. *)
Lemma hash_loop_cons h a r :
  hash_loop h (String a r) = hash_loop (to_int32 (31 * h + Z.of_nat (code a))) r.
Proof.
  cbn [hash_loop]. rewrite Z.land_diag. f_equal.
  rewrite Z.shiftl_mul_pow2 by lia.
  destruct (to_int32_shift (h * 2 ^ 5)) as [k ->].
  apply (to_int32_cong _ _ k). ring.
Qed.

Lemma hash_loop_two h a b r :
  hash_loop h (String a (String b r)) =
    hash_loop (to_int32 (961 * h + (31 * Z.of_nat (code a) + Z.of_nat (code b)))) r.
Proof.
  rewrite !hash_loop_cons. f_equal.
  destruct (to_int32_shift (31 * h + Z.of_nat (code a))) as [k ->].
  apply (to_int32_cong _ _ (31 * k)). ring.
Qed.

Lemma hash_loop_app h a b : hash_loop h (a ++ b) = hash_loop (hash_loop h a) b.
Proof.
  revert h. induction a as [|c a IH]; intros h; [reflexivity|].
  rewrite str_app_cons, !hash_loop_cons. apply IH.
Qed.

Lemma hashString_Aa_BB_eq (p s : string) :
  hashString (p ++ "Aa" ++ s) = hashString (p ++ "BB" ++ s).
Proof.
  unfold hashString. rewrite !hash_loop_app.
  change ("Aa" ++ s) with (String "A" (String "a" s)).
  change ("BB" ++ s) with (String "B" (String "B" s)).
  rewrite !hash_loop_two. reflexivity.
Qed.

(** [hashString] is not injective: replacing the two characters [Aa] by
    [BB] anywhere in a text leaves the hash unchanged (31 * 65 + 97 =
    31 * 66 + 66). *)
Theorem hashString_collision (p s : string) :
  hashString (p ++ "Aa" ++ s) = hashString (p ++ "BB" ++ s).
Proof. apply hashString_Aa_BB_eq. Qed.

(** With deduplication enabled, an entry is skipped as a duplicate of a
    recorded entry with the same identifier even though its body differs:
    the bodies [p ++ "Aa" ++ s] and [p ++ "BB" ++ s] share their
    fingerprint. *)
Theorem dedup_skips_different_body (st : state) (e e' : entry) (u p s : string) :
  allowDuplicates st = false -> uuid e = Some u -> u <> "" -> uuid e' = Some u ->
  text e = Some (p ++ "Aa" ++ s) -> text e' = Some (p ++ "BB" ++ s) ->
  text_or_empty e <> text_or_empty e' /\
  shouldSkipDuplicate (recordEntry st e) e' = true.
Proof.
  intros Hallow Hu Hne Hu' Ht Ht'.
  unfold text_or_empty. rewrite Ht, Ht', !str_or_empty. split.
  - intros H. apply str_app_inv_l in H. discriminate H.
  - rewrite (recordEntry_skip_lookup st e e' u Hallow Hu Hne Hu').
    unfold text_or_empty. rewrite Ht, Ht', !str_or_empty, hashString_Aa_BB_eq.
    apply String.eqb_refl.
Qed.

Definition entry_Aa : entry := mk_entry (Some dup_id) (Some "Aa") (Some "2024-01-15T10:00:00Z").
Definition entry_BB : entry := mk_entry (Some dup_id) (Some "BB") (Some "2024-01-15T10:00:00Z").

Lemma dedup_skips_different_body_witness :
  allowDuplicates (new_converter false) = false /\ uuid entry_Aa = Some dup_id /\
  dup_id <> "" /\ uuid entry_BB = Some dup_id /\
  text entry_Aa = Some ("" ++ "Aa" ++ "") /\ text entry_BB = Some ("" ++ "BB" ++ "") /\
  shouldSkipDuplicate (recordEntry (new_converter false) entry_Aa) entry_BB = true.
Proof.
  assert (H1 : allowDuplicates (new_converter false) = false) by reflexivity.
  assert (H2 : uuid entry_Aa = Some dup_id) by reflexivity.
  assert (H3 : dup_id <> "") by discriminate.
  assert (H4 : uuid entry_BB = Some dup_id) by reflexivity.
  assert (H5 : text entry_Aa = Some ("" ++ "Aa" ++ "")) by reflexivity.
  assert (H6 : text entry_BB = Some ("" ++ "BB" ++ "")) by reflexivity.
  repeat (split; [assumption|]).
  exact (proj2 (dedup_skips_different_body _ _ _ _ _ _ H1 H2 H3 H4 H5 H6)).
Defined.

(* ------------------------------------------------------------------ *)
(** ** Counting converted and skipped entries *)

Lemma recordEntry_skipped st e : skippedDuplicates (recordEntry st e) = skippedDuplicates st.
Proof. unfold recordEntry. destruct (negb _); reflexivity. Qed.

Lemma convert_step_counts `{DP : DateParse} r e r' :
  convert_step r e = Ok r' ->
  (run_converted r' + skippedDuplicates (run_state r') =
   S (run_converted r + skippedDuplicates (run_state r)))%nat.
Proof.
  unfold convert_step. destruct (shouldSkipDuplicate (run_state r) e).
  - intros H. injection H as <-. simpl. lia.
  - intros H. inv_bind H. destruct a as [[fn c] st1]. injection H as <-. simpl.
    destruct (convertEntry_frame _ _ _ _ _ Ha) as (_ & _ & Hsk).
    destruct (allowDuplicates st1); [|rewrite recordEntry_skipped]; lia.
Qed.

(** Every entry of a completed run is either converted or skipped as a
    duplicate: the number converted plus the skipped counter grows by the
    number of entries. *)
Theorem convert_entries_accounting `{DP : DateParse} (r : run) (es : list entry) (r' : run) :
  convert_entries r es = Ok r' ->
  (run_converted r' + skippedDuplicates (run_state r') =
   run_converted r + skippedDuplicates (run_state r) + List.length es)%nat.
Proof.
  revert r. induction es as [|e es IH]; intros r H; simpl in H.
  - injection H as <-. simpl. lia.
  - inv_bind H. pose proof (convert_step_counts _ _ _ Ha). apply IH in H.
    simpl. lia.
Qed.

(** The run over [dup_x], [dup_y] and [dup_y]: two converted, one skipped. *)
Definition accounting_run : run :=
  match convert_entries (start_run (new_converter false)) [dup_x; dup_y; dup_y] with
  | Ok r => r
  | Throw _ => start_run (new_converter false)
  end.

Lemma convert_entries_accounting_witness :
  convert_entries (start_run (new_converter false)) [dup_x; dup_y; dup_y] = Ok accounting_run /\
  (run_converted accounting_run + skippedDuplicates (run_state accounting_run) =
   run_converted (start_run (new_converter false))
   + skippedDuplicates (run_state (start_run (new_converter false)))
   + List.length [dup_x; dup_y; dup_y])%nat.
Proof.
  assert (H : convert_entries (start_run (new_converter false)) [dup_x; dup_y; dup_y]
              = Ok accounting_run) by (vm_compute; reflexivity).
  split; [exact H|].
  exact (convert_entries_accounting _ _ _ H).
Defined.

(* ------------------------------------------------------------------ *)
(** ** [generateFilename]: invalid dates and used names *)




(** [generateFilename] adds the name it returns to [usedFilenames] and
    nothing else; it returns a name already in use only when that name is
    the disambiguated [<base> (<first 8 characters of the uuid>).md] and
    [<base>.md] was taken as well. *)
Theorem generateFilename_usedFilenames `{DP : DateParse} (st : state) (e : entry) (fn : string) (st' : state) :
  generateFilename st e = Ok (fn, st') ->
  usedFilenames st' = {[ fn ]} ∪ usedFilenames st /\
  (fn ∈ usedFilenames st ->
   exists base u, uuid e = Some u /\ fn = base ++ " (" ++ slice0 8 u ++ ").md" /\
                  base ++ ".md" ∈ usedFilenames st).
Proof.
  unfold generateFilename. intros H.
  inv_bind H. inv_bind H. inv_bind H. injection H as <- <-.
  split; [reflexivity|]. intros Hin.
  destruct (decide (a0 ++ ".md" ∈ usedFilenames st)) as [Hb|Hb].
  - inv_bind Ha1. injection Ha1 as <-.
    apply uuid_prefix_Ok in Ha2 as (u & Hu & ->). eauto.
  - injection Ha1 as <-. contradiction.
Qed.

Lemma generateFilename_usedFilenames_witness :
  generateFilename (new_converter false) morning
    = Ok (morning_filename, set_usedFilenames (new_converter false) {[ morning_filename ]}) /\
  usedFilenames (set_usedFilenames (new_converter false) {[ morning_filename ]})
    = {[ morning_filename ]} ∪ usedFilenames (new_converter false).
Proof.
  assert (H : generateFilename (new_converter false) morning
    = Ok (morning_filename, set_usedFilenames (new_converter false) {[ morning_filename ]}))
    by (vm_compute; reflexivity).
  split; [exact H|].
  exact (proj1 (generateFilename_usedFilenames _ _ _ _ H)).
Defined.

(* ------------------------------------------------------------------ *)
(** ** [buildPhotoMap]: registration and lookup *)

(** The identifiers of all attachments of an entry, in registration order. *)
Definition attachment_ids (e : entry) : list string :=
  List.map identifier (opt_list (photos e) ++ opt_list (videos e)
                       ++ opt_list (audios e) ++ opt_list (pdfAttachments e)).

Lemma register_all_cons f a l m :
  register_all f (a :: l) m =
    register_all f l (<[identifier a := {| media_md5 := md5 a; media_type := f (type a) |}]> m).
Proof. reflexivity. Qed.

Lemma register_all_notin f l m k :
  ~ In k (List.map identifier l) -> register_all f l m !! k = m !! k.
Proof.
  revert m. induction l as [|a l IH]; intros m Hk; [reflexivity|].
  rewrite register_all_cons. cbn [List.map In] in Hk.
  rewrite IH by tauto. apply lookup_insert_ne. intros E. apply Hk. now left.
Qed.

Lemma register_all_keeps f l m k : is_Some (m !! k) -> is_Some (register_all f l m !! k).
Proof.
  revert m. induction l as [|a l IH]; intros m Hk; [exact Hk|].
  rewrite register_all_cons. apply IH.
  destruct (String.eqb_spec (identifier a) k) as [<-|Hne].
  - rewrite lookup_insert_eq. eauto.
  - rewrite lookup_insert_ne by exact Hne. exact Hk.
Qed.

Lemma register_all_in f l m k : In k (List.map identifier l) -> is_Some (register_all f l m !! k).
Proof.
  revert m. induction l as [|a l IH]; intros m Hk; [destruct Hk|].
  rewrite register_all_cons. cbn [List.map In] in Hk. destruct Hk as [<-|Hk].
  - apply register_all_keeps. rewrite lookup_insert_eq. eauto.
  - now apply IH.
Qed.

Lemma register_all_last f l m a :
  NoDup (List.map identifier l) -> In a l ->
  register_all f l m !! identifier a = Some {| media_md5 := md5 a; media_type := f (type a) |}.
Proof.
  revert m. induction l as [|b l IH]; intros m Hnd Ha; [destruct Ha|].
  rewrite register_all_cons. cbn [List.map] in Hnd. apply NoDup_cons in Hnd as [Hb Hnd].
  destruct Ha as [->|Ha].
  - rewrite register_all_notin.
    + apply lookup_insert_eq.
    + intros Hin. apply Hb. now apply list_elem_of_In.
  - now apply IH.
Qed.

(** After [buildPhotoMap], every identifier of an attachment of the entry
    (photos, videos, audios and PDFs) is registered, and the registration
    of any other identifier is what it was before. *)
Theorem buildPhotoMap_lookup (st : state) (e : entry) (k : string) :
  (In k (attachment_ids e) -> is_Some (photoMap (buildPhotoMap st e) !! k)) /\
  (~ In k (attachment_ids e) -> photoMap (buildPhotoMap st e) !! k = photoMap st !! k).
Proof.
  unfold attachment_ids. rewrite !List.map_app. split.
  - intros Hk. cbn [buildPhotoMap set_photoMap photoMap].
    apply in_app_or in Hk as [Hk|Hk].
    { do 3 apply register_all_keeps. now apply register_all_in. }
    apply in_app_or in Hk as [Hk|Hk].
    { do 2 apply register_all_keeps. now apply register_all_in. }
    apply in_app_or in Hk as [Hk|Hk].
    { apply register_all_keeps. now apply register_all_in. }
    now apply register_all_in.
  - intros Hk. cbn [buildPhotoMap set_photoMap photoMap].
    rewrite !register_all_notin; [reflexivity| |..];
      intros H; apply Hk; rewrite ?in_app_iff; tauto.
Qed.

Definition entry_with_photo : entry :=
  {| uuid := Some dup_id; text := None; creationDate := Some "2024-01-15T10:00:00Z";
     modifiedDate := None; timeZone := None; starred := None; isPinned := None;
     isAllDay := None; tags := None; entry_location := None; entry_weather := None;
     userActivity := None; creationDevice := None; creationDeviceType := None;
     creationDeviceModel := None; creationOSName := None; creationOSVersion := None;
     photos := Some [mk_attachment "A1" "f00d" None];
     videos := None; audios := None; pdfAttachments := None; editingTime := None |}.

Lemma buildPhotoMap_lookup_witness :
  In "A1" (attachment_ids entry_with_photo) /\
  is_Some (photoMap (buildPhotoMap (new_converter false) entry_with_photo) !! "A1").
Proof.
  assert (H : In "A1" (attachment_ids entry_with_photo)) by (left; reflexivity).
  split; [exact H|].
  exact (proj1 (buildPhotoMap_lookup (new_converter false) entry_with_photo "A1") H).
Defined.

(** When the attachment identifiers of an entry are pairwise distinct, a
    placeholder for one of its photos is rewritten, with the media index
    [convertEntry] builds for the entry, into an embedded link to exactly
    the file named by that photo's [file] field in the frontmatter. *)
Theorem photo_link_matches_frontmatter (st : state) (e : entry) (p : attachment) (rest : string) :
  NoDup (attachment_ids e) -> In p (opt_list (photos e)) ->
  identifier p <> "" -> all_upper_hex (identifier p) = true ->
  convertImageReferences (photoMap (buildPhotoMap st e)) (placeholder (identifier p) ++ rest)
    = "![[" ++ p_file (build_photo_meta p) ++ "]]"
      ++ convertImageReferences (photoMap (buildPhotoMap st e)) rest.
Proof.
  intros Hnd Hp Hne Hhex.
  rewrite convertImageReferences_step, match_moment_placeholder by assumption.
  unfold moment_replacement.
  assert (Hl : photoMap (buildPhotoMap st e) !! identifier p
               = Some {| media_md5 := md5 p; media_type := str_or (type p) "jpeg" |}).
  { unfold attachment_ids in Hnd. rewrite !List.map_app in Hnd.
    apply NoDup_app in Hnd as (Hnd1 & Hdis & _).
    assert (Hin : identifier p ∈ List.map identifier (opt_list (photos e))).
    { apply list_elem_of_In, in_map, Hp. }
    pose proof (Hdis _ Hin) as Hout. rewrite !list_elem_of_In, !in_app_iff in Hout.
    cbn [buildPhotoMap set_photoMap photoMap].
    rewrite !register_all_notin by tauto.
    now apply register_all_last. }
  rewrite Hl. cbn [media_md5 media_type build_photo_meta p_file].
  now rewrite !str_app_assoc.
Qed.

Lemma photo_link_matches_frontmatter_witness :
  NoDup (attachment_ids entry_with_photo) /\
  In (mk_attachment "A1" "f00d" None) (opt_list (photos entry_with_photo)) /\
  convertImageReferences (photoMap (buildPhotoMap (new_converter false) entry_with_photo))
    (placeholder "A1" ++ "")
  = "![[" ++ p_file (build_photo_meta (mk_attachment "A1" "f00d" None)) ++ "]]"
    ++ convertImageReferences (photoMap (buildPhotoMap (new_converter false) entry_with_photo)) "".
Proof.
  assert (H1 : NoDup (attachment_ids entry_with_photo)) by (repeat constructor; set_solver).
  assert (H2 : In (mk_attachment "A1" "f00d" None) (opt_list (photos entry_with_photo)))
    by (left; reflexivity).
  split; [exact H1|]. split; [exact H2|].
  exact (photo_link_matches_frontmatter (new_converter false) entry_with_photo _ "" H1 H2
           ltac:(discriminate) eq_refl).
Defined.

(* ------------------------------------------------------------------ *)
(** ** The output archive: [zip.file] and the paths [convert] writes *)

(** Reading a file of the output archive back by its path. *)
Fixpoint zip_get (p : string) (z : zip) : option out_content :=
  match z with
  | [] => None
  | (q, c) :: z' => if String.eqb q p then Some c else zip_get p z'
  end.

(** The last media file of the input whose basename is [b]. *)
Definition last_media_named (b : string) (input : list zip_entry) : option zip_entry :=
  List.last (List.map Some (List.filter (fun f => String.eqb (last_segment (zname f)) b)
                                       (List.filter is_media_file input))) None.

Definition no_slash (s : string) : bool := str_all (fun c => negb (Ascii.eqb c "/"%char)) s.

Lemma zip_get_app p z w :
  zip_get p (z ++ w) = match zip_get p z with Some c => Some c | None => zip_get p w end.
Proof.
  induction z as [|[q c] z IH]; [reflexivity|]. cbn.
  destruct (String.eqb q p); [reflexivity | exact IH].
Qed.

Lemma zip_get_absent p z :
  existsb (fun q => String.eqb q.1 p) z = false -> zip_get p z = None.
Proof.
  induction z as [|[q c] z IH]; [reflexivity|]. cbn. intros H.
  apply orb_false_iff in H as [H1 H2]. rewrite H1. exact (IH H2).
Qed.

Lemma zip_get_replace p c z p' :
  zip_get p' (List.map (fun q => if String.eqb q.1 p then (p, c) else q) z)
    = if String.eqb p' p
      then (if existsb (fun q => String.eqb q.1 p) z then Some c else None)
      else zip_get p' z.
Proof.
  induction z as [|[q d] z IH]; [cbn; now destruct (String.eqb p' p)|]. cbn.
  destruct (String.eqb_spec q p) as [Hqp|Hq].
  - subst q. cbn. rewrite IH.
    destruct (String.eqb_spec p p'); destruct (String.eqb_spec p' p); congruence.
  - cbn. rewrite IH.
    destruct (String.eqb_spec q p'); destruct (String.eqb_spec p' p); congruence.
Qed.

Lemma zip_file_paths p c z :
  List.map fst (zip_file p c z)
  = if existsb (fun q => String.eqb q.1 p) z then List.map fst z else (List.map fst z ++ [p])%list.
Proof.
  unfold zip_file. destruct (existsb _ z); [|now rewrite List.map_app].
  rewrite List.map_map. apply List.map_ext. intros [q d]. cbn.
  destruct (String.eqb_spec q p); cbn; congruence.
Qed.

Lemma zip_file_NoDup p c z : NoDup (List.map fst z) -> NoDup (List.map fst (zip_file p c z)).
Proof.
  intros Hnd. rewrite zip_file_paths. destruct (existsb _ z) eqn:He; [exact Hnd|].
  apply NoDup_app. split; [exact Hnd|]. split; [|apply NoDup_singleton].
  intros x Hx Hy. apply list_elem_of_singleton in Hy as ->.
  apply list_elem_of_In, in_map_iff in Hx as ([q d] & Hq & Hin). cbn in Hq. subst q.
  assert (Ht : existsb (fun q => String.eqb q.1 p) z = true).
  { apply existsb_exists. exists (p, d). split; [exact Hin | apply String.eqb_refl]. }
  congruence.
Qed.

Lemma zip_file_Forall (P : string -> Prop) p c z :
  P p -> List.Forall P (List.map fst z) -> List.Forall P (List.map fst (zip_file p c z)).
Proof.
  intros Hp Hz. rewrite zip_file_paths. destruct (existsb _ z); [exact Hz|].
  apply List.Forall_app. split; [exact Hz | now constructor].
Qed.

Lemma str_all_last_segment_go (sep : ascii) (s : string) :
  List.Forall (fun x => str_all (fun c => negb (Ascii.eqb c sep)) x = true) (split_on sep s).
Proof.
  induction s as [|c r IH]; cbn; [now repeat constructor|].
  destruct (Ascii.eqb c sep) eqn:Hc; [now constructor|].
  destruct (split_on sep r) as [|l ls]; [constructor; [|constructor]; cbn; now rewrite Hc|].
  apply List.Forall_cons_iff in IH as [Hl Hls]. constructor; [|exact Hls].
  cbn. now rewrite Hc, Hl.
Qed.

Lemma Forall_last {A} (P : A -> Prop) (l : list A) (d : A) :
  List.Forall P l -> P d -> P (List.last l d).
Proof.
  induction l as [|a l IH]; intros Hl Hd; [exact Hd|].
  apply List.Forall_cons_iff in Hl as [Ha Hl].
  destruct l as [|b l]; [exact Ha|]. exact (IH Hl Hd).
Qed.

Lemma last_segment_no_slash s : no_slash (last_segment s) = true.
Proof.
  apply (Forall_last (fun x => no_slash x = true)); [apply str_all_last_segment_go|reflexivity].
Qed.

(** The invariants of the archive that the entry loop keeps: it only writes
    files below [entries/]. *)
Lemma convert_step_zip `{DP : DateParse} (P : zip -> Prop) r e r' :
  (forall fn c z, P z -> P (zip_file ("entries/" ++ fn) c z)) ->
  convert_step r e = Ok r' -> P (run_zip r) -> P (run_zip r').
Proof.
  intros HP H Hr. unfold convert_step in H.
  destruct (shouldSkipDuplicate (run_state r) e).
  - injection H as <-. exact Hr.
  - inv_bind H. destruct a as [[fn c] st1]. injection H as <-. cbn. exact (HP _ _ _ Hr).
Qed.

Lemma convert_entries_zip `{DP : DateParse} (P : zip -> Prop) es r r' :
  (forall fn c z, P z -> P (zip_file ("entries/" ++ fn) c z)) ->
  convert_entries r es = Ok r' -> P (run_zip r) -> P (run_zip r').
Proof.
  intros HP. revert r. induction es as [|e es IH]; intros r H Hr.
  - cbn in H. injection H as <-. exact Hr.
  - cbn in H. inv_bind H. exact (IH _ H (convert_step_zip P _ _ _ HP Ha Hr)).
Qed.

Lemma convert_Ok_zip `{DP : DateParse} st input z st' :
  convert st input = Ok (z, st') ->
  exists r es, convert_entries {| run_state := st; run_zip := copy_media input;
                                  run_converted := 0 |} es = Ok r /\ z = run_zip r.
Proof.
  unfold convert. destruct (List.filter _ input) as [|jf fs]; [discriminate|].
  intros H. inv_bind H. inv_bind H. inv_bind H. injection H as <- <-. eauto.
Qed.

Definition step_media (z : zip) (f : zip_entry) : zip :=
  zip_file ("attachments/" ++ last_segment (zname f)) (OMedia (zdata f)) z.

Lemma copy_media_fold input :
  copy_media input = fold_left step_media (List.filter is_media_file input) [].
Proof. reflexivity. Qed.

Lemma fold_media_paths l z :
  NoDup (List.map fst z) ->
  List.Forall (fun p => exists b, p = "attachments/" ++ b /\ no_slash b = true) (List.map fst z) ->
  NoDup (List.map fst (fold_left step_media l z)) /\
  List.Forall (fun p => exists b, p = "attachments/" ++ b /\ no_slash b = true)
    (List.map fst (fold_left step_media l z)).
Proof.
  revert z. induction l as [|f l IH]; intros z Hnd Hf; [easy|].
  cbn [fold_left]. apply IH; unfold step_media.
  - now apply zip_file_NoDup.
  - apply zip_file_Forall; [|exact Hf]. eexists. split; [reflexivity|].
    apply last_segment_no_slash.
Qed.

Lemma fold_media_get l z b :
  zip_get ("attachments/" ++ b) (fold_left step_media l z)
  = match List.last (List.map Some (List.filter
            (fun f => String.eqb (last_segment (zname f)) b) l)) None with
    | Some f => Some (OMedia (zdata f))
    | None => zip_get ("attachments/" ++ b) z
    end.
Proof.
  induction l as [|f l IH] using rev_ind; [reflexivity|].
  rewrite fold_left_app. cbn [fold_left]. unfold step_media at 1.
  unfold zip_file. rewrite List.filter_app, List.map_app.
  assert (Hget : forall z', zip_get ("attachments/" ++ b)
      (zip_file ("attachments/" ++ last_segment (zname f)) (OMedia (zdata f)) z')
      = if String.eqb (last_segment (zname f)) b then Some (OMedia (zdata f))
        else zip_get ("attachments/" ++ b) z').
  { intros z'. unfold zip_file. destruct (existsb _ z') eqn:He.
    - rewrite zip_get_replace, He.
      destruct (String.eqb_spec ("attachments/" ++ b) ("attachments/" ++ last_segment (zname f)))
        as [Hs|Hs];
        destruct (String.eqb_spec (last_segment (zname f)) b) as [Hb|Hb]; try reflexivity.
      + apply str_app_inv_l in Hs. congruence.
      + subst b. contradiction.
    - rewrite zip_get_app.
      destruct (String.eqb_spec (last_segment (zname f)) b) as [<-|Hb].
      { rewrite (zip_get_absent _ _ He). cbn. now rewrite String.eqb_refl. }
      destruct (zip_get _ z'); [reflexivity|]. cbn.
      destruct (String.eqb_spec ("attachments/" ++ last_segment (zname f)) ("attachments/" ++ b))
        as [Hs|]; [apply str_app_inv_l in Hs; congruence | reflexivity]. }
  fold (zip_file ("attachments/" ++ last_segment (zname f)) (OMedia (zdata f))
          (fold_left step_media l z)).
  rewrite Hget. cbn [List.filter].
  destruct (String.eqb (last_segment (zname f)) b).
  - cbn [List.map]. now rewrite List.last_last.
  - rewrite List.app_nil_r. exact IH.
Qed.

Lemma zip_file_entries_get b fn c z :
  zip_get ("attachments/" ++ b) (zip_file ("entries/" ++ fn) c z) = zip_get ("attachments/" ++ b) z.
Proof.
  unfold zip_file. destruct (existsb _ z) eqn:He.
  - rewrite zip_get_replace, He. reflexivity.
  - rewrite zip_get_app. destruct (zip_get _ z); reflexivity.
Qed.

(** The archive [convert] produces never holds two files of the same path,
    and each of its files lies either below [entries/] or directly below
    [attachments/] (an attachment name never contains a slash). *)
Theorem convert_output_paths `{DP : DateParse} (st : state) (input : list zip_entry) (z : zip) (st' : state) :
  convert st input = Ok (z, st') ->
  NoDup (List.map fst z) /\
  List.Forall (fun p => (exists b, p = "attachments/" ++ b /\ no_slash b = true) \/
                        (exists fn, p = "entries/" ++ fn)) (List.map fst z).
Proof.
  intros H. apply convert_Ok_zip in H as (r & es & Hr & ->).
  refine (convert_entries_zip (fun z => NoDup (List.map fst z) /\ List.Forall _ (List.map fst z))
            es _ _ _ Hr _).
  - intros fn c z [Hnd Hf]. split; [now apply zip_file_NoDup|].
    apply zip_file_Forall; [right; eauto | exact Hf].
  - cbn [run_zip]. rewrite copy_media_fold.
    destruct (fold_media_paths (List.filter is_media_file input) [] ltac:(constructor)
                ltac:(constructor)) as [Hnd Hf].
    split; [exact Hnd|]. eapply List.Forall_impl; [|exact Hf]. cbn. intros p Hp. now left.
Qed.

(** Every media file of the input archive is copied to [attachments/]
    under its basename; when several media files share a basename, the
    file at that path holds the bytes of the last of them, and entries
    never overwrite an attachment. *)
Theorem convert_attachment_contents `{DP : DateParse} (st : state) (input : list zip_entry) (z : zip) (st' : state)
    (b : string) :
  convert st input = Ok (z, st') ->
  zip_get ("attachments/" ++ b) z = option_map (fun f => OMedia (zdata f)) (last_media_named b input).
Proof.
  intros H. apply convert_Ok_zip in H as (r & es & Hr & ->).
  refine (convert_entries_zip (fun z => zip_get ("attachments/" ++ b) z = _) es _ _ _ Hr _).
  - intros fn c z Hz. now rewrite zip_file_entries_get.
  - cbn [run_zip]. rewrite copy_media_fold, fold_media_get. unfold last_media_named.
    destruct (List.last _ None); reflexivity.
Qed.

Definition media_file (name data : string) : zip_entry :=
  {| zname := name; zdir := false; zdata := data; zjson := None |}.

Definition archive_with_media : list zip_entry :=
  [journal_file (JValue (Some [morning]));
   media_file "Export/photos/f00d.jpeg" "first";
   media_file "photos/f00d.jpeg" "second";
   media_file "audios/a1.m4a" "sound"].

Definition archive_with_media_zip : zip :=
  match convert (new_converter false) archive_with_media with
  | Ok (z, _) => z
  | Throw _ => []
  end.

Definition archive_with_media_state : state :=
  match convert (new_converter false) archive_with_media with
  | Ok (_, st) => st
  | Throw _ => new_converter false
  end.

Lemma archive_with_media_Ok :
  convert (new_converter false) archive_with_media
    = Ok (archive_with_media_zip, archive_with_media_state).
Proof. vm_compute. reflexivity. Qed.

Lemma convert_output_paths_witness :
  convert (new_converter false) archive_with_media
    = Ok (archive_with_media_zip, archive_with_media_state) /\
  NoDup (List.map fst archive_with_media_zip) /\
  List.Forall (fun p => (exists b, p = "attachments/" ++ b /\ no_slash b = true) \/
                        (exists fn, p = "entries/" ++ fn)) (List.map fst archive_with_media_zip).
Proof.
  split; [exact archive_with_media_Ok|].
  exact (convert_output_paths _ _ _ _ archive_with_media_Ok).
Defined.

Lemma convert_attachment_contents_witness :
  convert (new_converter false) archive_with_media
    = Ok (archive_with_media_zip, archive_with_media_state) /\
  zip_get ("attachments/" ++ "f00d.jpeg") archive_with_media_zip
    = option_map (fun f => OMedia (zdata f)) (last_media_named "f00d.jpeg" archive_with_media) /\
  last_media_named "f00d.jpeg" archive_with_media = Some (media_file "photos/f00d.jpeg" "second").
Proof.
  split; [exact archive_with_media_Ok|].
  split; [exact (convert_attachment_contents _ _ _ _ "f00d.jpeg" archive_with_media_Ok)|].
  vm_compute. reflexivity.
Defined.

(* ------------------------------------------------------------------ *)
(** ** The shape of [hashString] *)

(** A lowercase hexadecimal digit, [0-9a-f]. *)
Definition is_lower_hex (c : ascii) : bool :=
  let n := nat_of_ascii c in
  (Nat.leb 48 n && Nat.leb n 57) || (Nat.leb 97 n && Nat.leb n 102).

Lemma to_int32_range z : (- 2 ^ 31 <= to_int32 z < 2 ^ 31)%Z.
Proof.
  unfold to_int32. pose proof (Z.mod_pos_bound z (2 ^ 32) ltac:(lia)).
  destruct (Z.leb_spec (2 ^ 31) (z mod 2 ^ 32)); lia.
Qed.

Lemma hash_loop_range h s :
  (- 2 ^ 31 <= h < 2 ^ 31)%Z -> (- 2 ^ 31 <= hash_loop h s < 2 ^ 31)%Z.
Proof.
  revert h. induction s as [|c s IH]; intros h Hh; [exact Hh|].
  cbn [hash_loop]. rewrite Z.land_diag. apply IH, to_int32_range.
Qed.

Lemma hex_char_lower d : (0 <= d < 16)%Z -> is_lower_hex (hex_char d) = true.
Proof.
  intros Hd.
  assert (d = 0 \/ d = 1 \/ d = 2 \/ d = 3 \/ d = 4 \/ d = 5 \/ d = 6 \/ d = 7 \/ d = 8 \/
          d = 9 \/ d = 10 \/ d = 11 \/ d = 12 \/ d = 13 \/ d = 14 \/ d = 15)%Z as Hc by lia.
  repeat destruct Hc as [->|Hc]; [..|subst d]; vm_compute; reflexivity.
Qed.

Lemma str_all_app f (a b : string) : str_all f (a ++ b) = str_all f a && str_all f b.
Proof.
  induction a as [|c a IH]; [reflexivity|].
  rewrite str_app_cons. cbn [str_all]. rewrite IH. apply andb_assoc.
Qed.

Lemma hex_digits_shape fuel n acc k :
  (0 <= n < 16 ^ Z.of_nat k)%Z -> (1 <= k <= fuel)%nat ->
  exists ds, hex_digits fuel n acc = ds ++ acc /\ (1 <= String.length ds <= k)%nat /\
             str_all is_lower_hex ds = true.
Proof.
  revert n acc k. induction fuel as [|f IH]; intros n acc k Hn Hk; [lia|].
  cbn [hex_digits].
  assert (Hc : is_lower_hex (hex_char (n mod 16)) = true)
    by (apply hex_char_lower; apply Z.mod_pos_bound; lia).
  destruct (Z.ltb_spec n 16) as [Hlt|Hge].
  - exists (String (hex_char (n mod 16)) ""). split; [reflexivity|].
    cbn [String.length str_all]. rewrite Hc. split; [lia | reflexivity].
  - destruct k as [|[|k]]; [lia| |].
    { cbn in Hn. lia. }
    destruct (IH (n / 16)%Z (String (hex_char (n mod 16)) acc) (S k)) as (ds & Hds & Hl & Ha).
    + split; [apply Z.div_pos; lia|].
      apply Z.div_lt_upper_bound; [lia|].
      replace (Z.of_nat (S (S k))) with (1 + Z.of_nat (S k))%Z in Hn by lia.
      rewrite Z.pow_add_r in Hn by lia. lia.
    + lia.
    + exists (ds ++ String (hex_char (n mod 16)) ""). rewrite Hds, str_app_assoc.
      cbn [String.append]. split; [reflexivity|].
      rewrite str_length_app, str_all_app. cbn [String.length str_all].
      rewrite Ha, Hc. split; [lia | reflexivity].
Qed.

(** [hashString] always gives an optional minus sign followed by one to
    eight lowercase hexadecimal digits: the fingerprints it stores are at
    most nine characters long, whatever the length of the text. *)
Theorem hashString_format (s : string) :
  exists sign ds, hashString s = sign ++ ds /\ (sign = "" \/ sign = "-") /\
                  (1 <= String.length ds <= 8)%nat /\ str_all is_lower_hex ds = true.
Proof.
  unfold hashString, to_hex_string.
  pose proof (hash_loop_range 0 s ltac:(lia)) as Hr.
  assert (H8 : (16 ^ Z.of_nat 8 = 2 ^ 32)%Z) by reflexivity.
  destruct (Z.ltb_spec (hash_loop 0 s) 0) as [Hneg|Hpos].
  - destruct (hex_digits_shape 16 (- hash_loop 0 s) "" 8) as (ds & Hds & Hl & Ha); [lia|lia|].
    exists "-", ds. rewrite Hds, str_app_nil_r. auto.
  - destruct (hex_digits_shape 16 (hash_loop 0 s) "" 8) as (ds & Hds & Hl & Ha); [lia|lia|].
    exists "", ds. rewrite Hds, str_app_nil_r. auto.
Qed.

(* ------------------------------------------------------------------ *)
(** ** Converting the same export twice with one converter *)

(** The entries [convert] reads from the first JSON file of the archive. *)
Definition journal_entries (input : list zip_entry) : option (list entry) :=
  match List.filter (fun f => ends_with ".json" (zname f)) input with
  | [] => None
  | jf :: _ =>
      match zjson jf with
      | Some (JValue es) => Some (opt_list es)
      | _ => None
      end
  end.

Lemma convert_Ok_entries `{DP : DateParse} st input z st' es :
  convert st input = Ok (z, st') -> journal_entries input = Some es ->
  exists r, convert_entries {| run_state := st; run_zip := copy_media input;
                              run_converted := 0 |} es = Ok r /\
            z = run_zip r /\ st' = run_state r.
Proof.
  unfold convert, journal_entries. destruct (List.filter _ input) as [|jf fs]; [discriminate|].
  destruct (zjson jf) as [[|es']|]; intros H He; try discriminate.
  injection He as <-. cbn [mbind res_bind] in H. inv_bind H. injection H as <- <-. eauto.
Qed.

Lemma records_uuid u e : records u e = true -> uuid e = Some u.
Proof.
  unfold records, str_truthy, str_or. destruct (uuid e) as [v|]; [|discriminate].
  destruct (String.eqb_spec v ""); cbn; [discriminate|].
  intros H. apply String.eqb_eq in H. now subst.
Qed.

Lemma last_text_for_none u es :
  (forall x, In x es -> uuid x <> Some u) -> last_text_for u es = None.
Proof.
  induction es as [|x es IH]; intros Hx; [reflexivity|]. cbn.
  rewrite IH by (intros y Hy; apply Hx; now right).
  destruct (records u x) eqn:Hr; [|reflexivity].
  exfalso. apply (Hx x); [now left | now apply records_uuid].
Qed.

Lemma last_text_for_unique u es e :
  NoDup (List.map uuid es) -> In e es -> uuid e = Some u -> u <> "" ->
  last_text_for u es = Some (text_or_empty e).
Proof.
  induction es as [|x es IH]; intros Hnd He Hu Hne; [destruct He|].
  cbn [List.map] in Hnd. apply NoDup_cons in Hnd as [Hx Hnd]. cbn.
  destruct He as [->|He].
  - rewrite last_text_for_none.
    + unfold records, str_truthy, str_or. rewrite Hu.
      destruct (String.eqb_spec u "") as [|_]; [contradiction|]. cbn.
      now rewrite String.eqb_refl.
    + intros y Hy Hyu. apply Hx. rewrite Hu, <- Hyu.
      apply list_elem_of_In, in_map, Hy.
  - now rewrite (IH Hnd He Hu Hne).
Qed.

Lemma shouldSkipDuplicate_incr st e :
  shouldSkipDuplicate (incr_skipped st) e = shouldSkipDuplicate st e.
Proof. reflexivity. Qed.

Lemma convert_entries_all_skipped `{DP : DateParse} es r :
  List.Forall (fun e => shouldSkipDuplicate (run_state r) e = true) es ->
  exists r', convert_entries r es = Ok r' /\ run_zip r' = run_zip r /\
    run_converted r' = run_converted r /\
    allowDuplicates (run_state r') = allowDuplicates (run_state r) /\
    seenEntries (run_state r') = seenEntries (run_state r) /\
    usedFilenames (run_state r') = usedFilenames (run_state r) /\
    skippedDuplicates (run_state r') = (skippedDuplicates (run_state r) + List.length es)%nat.
Proof.
  revert r. induction es as [|e es IH]; intros r Hs.
  - exists r. cbn. repeat split; lia.
  - apply List.Forall_cons_iff in Hs as [He Hs]. cbn [convert_entries].
    unfold convert_step at 1. rewrite He. cbn [mbind res_bind].
    destruct (IH {| run_state := incr_skipped (run_state r); run_zip := run_zip r;
                    run_converted := run_converted r |}) as (r' & Hr' & Hz & Hc & Ha & Hse & Hu & Hk).
    { refine (List.Forall_impl _ _ Hs). intros x Hx. cbn [run_state].
      now rewrite shouldSkipDuplicate_incr. }
    exists r'. cbn [run_zip run_converted run_state incr_skipped allowDuplicates
                    seenEntries usedFilenames skippedDuplicates] in *.
    cbn [List.length]. repeat split; try assumption. lia.
Qed.

(** Converting an export a second time with the same converter (duplicates
    not allowed), when its entries carry pairwise distinct non-empty
    identifiers: every entry is skipped as a duplicate; the archive holds
    only the copied media, and the converter's fingerprints and used file
    names are unchanged. *)
Theorem reconvert_skips_all `{DP : DateParse} (st : state) (input : list zip_entry) (es : list entry)
    (z1 : zip) (st1 : state) :
  allowDuplicates st = false ->
  journal_entries input = Some es ->
  NoDup (List.map uuid es) ->
  List.Forall (fun e => str_truthy (uuid e) = true) es ->
  convert st input = Ok (z1, st1) ->
  exists st2, convert st1 input = Ok (copy_media input, st2) /\
    seenEntries st2 = seenEntries st1 /\ usedFilenames st2 = usedFilenames st1 /\
    skippedDuplicates st2 = (skippedDuplicates st1 + List.length es)%nat.
Proof.
  intros Hallow Hj Hnd Ht H1.
  destruct (convert_Ok_entries _ _ _ _ _ H1 Hj) as (r1 & Hr1 & -> & ->).
  set (r0 := {| run_state := st; run_zip := copy_media input; run_converted := 0 |}) in Hr1.
  destruct (convert_entries_seen es r0 r1 "" Hallow Hr1) as [Hallow1 _].
  destruct (convert_entries_all_skipped es
              {| run_state := run_state r1; run_zip := copy_media input; run_converted := 0 |})
    as (r2 & Hr2 & Hz & _ & _ & Hse & Hu & Hk).
  { apply List.Forall_forall. intros e He. cbn [run_state].
    pose proof (proj1 (List.Forall_forall _ _) Ht e He) as Hte.
    unfold str_truthy in Hte. destruct (uuid e) as [u|] eqn:Hu; [|discriminate].
    assert (Hne : u <> "") by (intros ->; discriminate).
    rewrite (shouldSkipDuplicate_seen _ e u Hallow1 Hu Hne).
    destruct (convert_entries_seen es r0 r1 u Hallow Hr1) as [_ ->].
    rewrite (last_text_for_unique u es e Hnd He Hu Hne). apply String.eqb_refl. }
  exists (run_state r2). split; [|auto].
  unfold convert. unfold journal_entries in Hj.
  destruct (List.filter _ input) as [|jf fs]; [discriminate|].
  destruct (zjson jf) as [[|es']|]; try discriminate. injection Hj as <-.
  cbn [mbind res_bind]. rewrite Hr2. cbn [mbind res_bind]. now rewrite Hz.
Qed.

Definition entry_two : entry :=
  mk_entry (Some "FEDCBA9876543210") (Some "Second") (Some "2024-01-16T08:30:00Z").

Definition archive_two : list zip_entry :=
  [journal_file (JValue (Some [morning; entry_two]));
   media_file "photos/f00d.jpeg" "bytes"].

Definition archive_two_zip : zip :=
  match convert (new_converter false) archive_two with
  | Ok (z, _) => z
  | Throw _ => []
  end.

Definition archive_two_state : state :=
  match convert (new_converter false) archive_two with
  | Ok (_, st) => st
  | Throw _ => new_converter false
  end.

Lemma reconvert_skips_all_witness :
  allowDuplicates (new_converter false) = false /\
  journal_entries archive_two = Some [morning; entry_two] /\
  NoDup (List.map uuid [morning; entry_two]) /\
  List.Forall (fun e => str_truthy (uuid e) = true) [morning; entry_two] /\
  convert (new_converter false) archive_two = Ok (archive_two_zip, archive_two_state) /\
  exists st2, convert archive_two_state archive_two = Ok (copy_media archive_two, st2) /\
    seenEntries st2 = seenEntries archive_two_state /\
    usedFilenames st2 = usedFilenames archive_two_state /\
    skippedDuplicates st2 = (skippedDuplicates archive_two_state + List.length [morning; entry_two])%nat.
Proof.
  assert (H1 : allowDuplicates (new_converter false) = false) by reflexivity.
  assert (H2 : journal_entries archive_two = Some [morning; entry_two]) by reflexivity.
  assert (H3 : NoDup (List.map uuid [morning; entry_two])).
  { cbn. constructor; [|constructor; [set_solver | constructor]].
    rewrite list_elem_of_singleton. discriminate. }
  assert (H4 : List.Forall (fun e => str_truthy (uuid e) = true) [morning; entry_two])
    by (repeat constructor).
  assert (H5 : convert (new_converter false) archive_two = Ok (archive_two_zip, archive_two_state))
    by (vm_compute; reflexivity).
  split; [exact H1|]. split; [exact H2|]. split; [exact H3|]. split; [exact H4|].
  split; [exact H5|].
  exact (reconvert_skips_all _ _ _ _ _ H1 H2 H3 H4 H5).
Defined.

(* ------------------------------------------------------------------ *)
(** ** Parsing a creation date and printing its date part *)

Lemma digit_val_Some c d :
  digit_val c = Some d -> (0 <= d <= 9)%Z /\ ascii_of_nat (48 + Z.to_nat d) = c.
Proof.
  unfold digit_val, code.
  destruct (Nat.leb_spec 48 (nat_of_ascii c)); destruct (Nat.leb_spec (nat_of_ascii c) 57);
    cbn [andb]; try discriminate.
  intros E. injection E as <-. split; [lia|].
  rewrite Nat2Z.id. replace (48 + (nat_of_ascii c - 48))%nat with (nat_of_ascii c) by lia.
  apply ascii_nat_embedding.
Qed.

Lemma parse_digits_bounds w acc v :
  (0 <= acc)%Z -> parse_digits_acc acc w = Some v ->
  (acc * 10 ^ Z.of_nat (String.length w) <= v < (acc + 1) * 10 ^ Z.of_nat (String.length w))%Z.
Proof.
  revert acc. induction w as [|c w IH]; intros acc Hacc H.
  - cbn in H. injection H as <-. cbn. lia.
  - cbn [parse_digits_acc] in H. destruct (digit_val c) as [d|] eqn:Hd; [|discriminate].
    apply digit_val_Some in Hd as [Hd _].
    pose proof (IH (acc * 10 + d)%Z ltac:(lia) H) as Hb.
    cbn [String.length]. rewrite Nat2Z.inj_succ, Z.pow_succ_r by lia.
    pose proof (Z.pow_pos_nonneg 10 (Z.of_nat (String.length w)) ltac:(lia) ltac:(lia)).
    nia.
Qed.

Lemma pad_dec_step k n d acc :
  (0 <= d <= 9)%Z -> (0 <= n)%Z ->
  pad_dec (S k) (n * 10 + d) acc = pad_dec k n (String (ascii_of_nat (48 + Z.to_nat d)) acc).
Proof.
  intros Hd Hn. cbn [pad_dec].
  replace ((n * 10 + d) / 10)%Z with n by (apply Z.div_unique with d; lia).
  replace ((n * 10 + d) mod 10)%Z with d by (apply Z.mod_unique with n; lia).
  reflexivity.
Qed.

(** Printing a parsed digit field with the same width gives it back. *)
Lemma pad_dec_parse w acc v tail k :
  (0 <= acc)%Z -> parse_digits_acc acc w = Some v ->
  pad_dec (k + String.length w) v tail = pad_dec k acc (w ++ tail).
Proof.
  revert acc k. induction w as [|c w IH]; intros acc k Hacc H.
  - cbn in H. injection H as <-. now rewrite Nat.add_0_r.
  - cbn [parse_digits_acc] in H. destruct (digit_val c) as [d|] eqn:Hd; [|discriminate].
    apply digit_val_Some in Hd as [Hd Hc].
    cbn [String.length]. rewrite <- Nat.add_succ_comm.
    rewrite (IH (acc * 10 + d)%Z (S k) ltac:(lia) H), pad_dec_step by lia. now rewrite Hc.
Qed.

Lemma is_leap_shift a k : is_leap (a + k * 400) = is_leap a.
Proof.
  unfold is_leap.
  replace (a + k * 400)%Z with (a + (k * 100) * 4)%Z by ring. rewrite Z.mod_add by lia.
  replace (a + k * 100 * 4)%Z with (a + (k * 4) * 100)%Z by ring. rewrite Z.mod_add by lia.
  replace (a + k * 4 * 100)%Z with (a + k * 400)%Z by ring. rewrite Z.mod_add by lia.
  reflexivity.
Qed.

Fixpoint zrange (start : Z) (n : nat) : list Z :=
  match n with
  | O => []
  | S n' => start :: zrange (start + 1)%Z n'
  end.

Lemma zrange_In start n x : (start <= x < start + Z.of_nat n)%Z -> In x (zrange start n).
Proof.
  revert start. induction n as [|n IH]; intros start Hx; [lia|].
  cbn. destruct (Z.eq_dec start x) as [->|Hne]; [now left|]. right. apply IH. lia.
Qed.

(** The year of an era of [civil_from_days], from the day of the era. *)
Definition yoe_of_doe (doe : Z) : Z :=
  ((doe - doe / 1460 + doe / 36524 - doe / 146096) / 365)%Z.

Lemma div_bounds a b : (0 < b)%Z -> (b * (a / b) <= a < b * (a / b) + b)%Z.
Proof.
  intros Hb. pose proof (Z.div_mod a b ltac:(lia)). pose proof (Z.mod_pos_bound a b Hb). lia.
Qed.

Lemma yoe_of_doe_mono x x' : (0 <= x <= x')%Z -> (yoe_of_doe x <= yoe_of_doe x')%Z.
Proof.
  intros Hx. unfold yoe_of_doe. apply Z.div_le_mono; [lia|].
  replace 146096%Z with (36524 * 4)%Z by reflexivity. rewrite <- !Z.div_div by lia.
  pose proof (div_bounds x 1460 ltac:(lia)). pose proof (div_bounds x' 1460 ltac:(lia)).
  pose proof (div_bounds x 36524 ltac:(lia)). pose proof (div_bounds x' 36524 ltac:(lia)).
  pose proof (div_bounds (x / 36524) 4 ltac:(lia)).
  pose proof (div_bounds (x' / 36524) 4 ltac:(lia)).
  lia.
Qed.

(** The year part of the round trip, checked for the 400 years of an era:
    the first and the last day of each year of the era give that year. *)
Lemma yoe_check :
  forallb (fun yoe =>
    let c := (yoe * 365 + yoe / 4 - yoe / 100)%Z in
    let e := if is_leap (yoe + 1) then 1%Z else 0%Z in
    Z.eqb (yoe_of_doe c) yoe && Z.eqb (yoe_of_doe (c + 364 + e)) yoe
    && Z.ltb (c + 364 + e) 146097) (zrange 0 400) = true.
Proof. vm_compute. reflexivity. Qed.

(** The month and day part of the round trip, checked for every day of a
    leap year. *)
Lemma month_day_check :
  forallb (fun m =>
    forallb (fun d =>
      let mp := (if 2 <? m then m - 3 else m + 9)%Z in
      let doy := ((153 * mp + 2) / 5 + d - 1)%Z in
      let mp' := ((5 * doy + 2) / 153)%Z in
      Z.eqb mp' mp && Z.eqb (doy - (153 * mp' + 2) / 5 + 1) d
      && Z.eqb (if mp' <? 10 then mp' + 3 else mp' - 9)%Z m
      && (if Z.eqb m 2 then Z.eqb doy (336 + d) else Z.leb doy 336))
      (zrange 1 (Z.to_nat (days_in_month 2000 m)))) (zrange 1 12) = true.
Proof. vm_compute. reflexivity. Qed.

Lemma days_in_month_le y m :
  (1 <= m <= 12)%Z -> (days_in_month y m <= days_in_month 2000 m)%Z.
Proof.
  intros Hm.
  assert (m = 1 \/ m = 2 \/ m = 3 \/ m = 4 \/ m = 5 \/ m = 6 \/ m = 7 \/ m = 8 \/ m = 9 \/
          m = 10 \/ m = 11 \/ m = 12)%Z as Hc by lia.
  assert (L : is_leap 2000 = true) by reflexivity.
  repeat destruct Hc as [->|Hc]; [..|subst m]; cbn [days_in_month]; rewrite ?L;
    try (destruct (is_leap y)); lia.
Qed.

(** [civil_from_days] inverts [days_from_civil] on every valid date. *)
Lemma civil_round_trip y m d :
  (1 <= m <= 12)%Z -> (1 <= d <= days_in_month y m)%Z ->
  civil_from_days (days_from_civil y m d) = (y, m, d).
Proof.
  intros Hm Hd.
  pose proof month_day_check as HM. rewrite forallb_forall in HM.
  specialize (HM m (zrange_In 1 12 m ltac:(lia))). rewrite forallb_forall in HM.
  pose proof (days_in_month_le y m Hm) as Hle.
  specialize (HM d (zrange_In 1 (Z.to_nat (days_in_month 2000 m)) d
                      ltac:(rewrite Z2Nat.id by lia; lia))).
  cbv zeta in HM.
  apply andb_prop in HM as [HM HM4]. apply andb_prop in HM as [HM HM3].
  apply andb_prop in HM as [HM1 HM2]. apply Z.eqb_eq in HM1, HM2, HM3.
  unfold days_from_civil, civil_from_days. cbv zeta.
  set (Y := if (m <=? 2)%Z then (y - 1)%Z else y) in *.
  set (era := (Y / 400)%Z) in *.
  set (yoe := (Y - era * 400)%Z) in *.
  set (mp := (if 2 <? m then m - 3 else m + 9)%Z) in *.
  set (doy := ((153 * mp + 2) / 5 + d - 1)%Z) in *.
  set (doe := (yoe * 365 + yoe / 4 - yoe / 100 + doy)%Z).
  assert (Hyoe : (0 <= yoe < 400)%Z).
  { unfold yoe, era. pose proof (div_bounds Y 400 ltac:(lia)). lia. }
  pose proof yoe_check as HY. rewrite forallb_forall in HY.
  specialize (HY yoe (zrange_In 0 400 yoe ltac:(lia))). cbv zeta in HY.
  apply andb_prop in HY as [HY HY3]. apply andb_prop in HY as [HY1 HY2].
  apply Z.eqb_eq in HY1, HY2. apply Z.ltb_lt in HY3.
  set (e := if is_leap (yoe + 1) then 1%Z else 0%Z) in *.
  (* the day of the year lies within the year of the era *)
  assert (He0 : (0 <= e)%Z) by (unfold e; destruct (is_leap (yoe + 1)); lia).
  assert (Hdoy : (0 <= doy <= 364 + e)%Z).
  { destruct (Z.eqb_spec m 2) as [Hm2|Hm2].
    - apply Z.eqb_eq in HM4.
      assert (He : e = if is_leap y then 1%Z else 0%Z).
      { unfold e. replace (yoe + 1)%Z with (y + (- era) * 400)%Z.
        - now rewrite is_leap_shift.
        - unfold yoe, Y. rewrite Hm2. cbn. ring. }
      rewrite Hm2 in Hd. cbn [days_in_month] in Hd. rewrite He. destruct (is_leap y); lia.
    - apply Z.leb_le in HM4.
      split; [|lia].
      unfold doy, mp. destruct (Z.ltb_spec 2 m).
      + pose proof (Z.div_pos (153 * (m - 3) + 2) 5 ltac:(lia) ltac:(lia)). lia.
      + pose proof (Z.div_pos (153 * (m + 9) + 2) 5 ltac:(lia) ltac:(lia)). lia. }
  assert (Hq4 : (0 <= yoe / 4)%Z) by (apply Z.div_pos; lia).
  assert (Hq100 : (yoe / 100 <= yoe / 4)%Z) by (apply Z.div_le_compat_l; lia).
  assert (Hyoe' : yoe_of_doe doe = yoe).
  { pose proof (yoe_of_doe_mono (yoe * 365 + yoe / 4 - yoe / 100) doe) as H1.
    pose proof (yoe_of_doe_mono doe (yoe * 365 + yoe / 4 - yoe / 100 + 364 + e)) as H2.
    unfold doe in *. lia. }
  replace (era * 146097 + doe - 719468 + 719468)%Z with (doe + era * 146097)%Z by ring.
  rewrite Z.div_add, (Z.div_small doe 146097), Z.add_0_l by (unfold doe in *; lia).
  replace (doe + era * 146097 - era * 146097)%Z with doe by ring.
  unfold yoe_of_doe in Hyoe'. rewrite Hyoe'.
  replace (doe - (365 * yoe + yoe / 4 - yoe / 100))%Z with doy by (unfold doe; ring).
  rewrite HM2, HM3.
  replace (yoe + era * 400)%Z with Y by (unfold yoe; ring).
  unfold Y. destruct (m <=? 2)%Z; f_equal; f_equal; ring.
Qed.

Lemma parse_iso_utc_Some s t :
  parse_iso_utc s = Some t ->
  exists y mo d r,
    digits_at 0 4 s = Some y /\ digits_at 5 2 s = Some mo /\ digits_at 8 2 s = Some d /\
    char_at_is 4 "-" s = true /\ char_at_is 7 "-" s = true /\
    (1 <= mo <= 12)%Z /\ (1 <= d <= days_in_month y mo)%Z /\
    (0 <= r < 86400000)%Z /\ t = (days_from_civil y mo d * 86400000 + r)%Z.
Proof.
  unfold parse_iso_utc. destruct (negb (Nat.eqb (String.length s) 20)); [discriminate|].
  match goal with |- context [if negb ?c then _ else _] => destruct c eqn:Hc end;
    cbn [negb]; [|discriminate].
  repeat apply andb_prop in Hc as [Hc ?].
  destruct (digits_at 0 4 s) as [y|] eqn:Hy; [|discriminate].
  destruct (digits_at 5 2 s) as [mo|] eqn:Hmo; [|discriminate].
  destruct (digits_at 8 2 s) as [d|] eqn:Hd; [|discriminate].
  destruct (digits_at 11 2 s) as [h|] eqn:Hh; [|discriminate].
  destruct (digits_at 14 2 s) as [mi|] eqn:Hmi; [|discriminate].
  destruct (digits_at 17 2 s) as [sec|] eqn:Hsec; [|discriminate].
  destruct (_ && _) eqn:Hb; [|discriminate]. intros E. injection E as <-.
  repeat apply andb_prop in Hb as [Hb ?]. rewrite ?Z.leb_le in *.
  apply parse_digits_bounds in Hh, Hmi, Hsec; try lia.
  exists y, mo, d, (h * 3600000 + mi * 60000 + sec * 1000)%Z.
  repeat split; auto; lia.
Qed.

Lemma days_in_month_le_31 y m : (1 <= m <= 12)%Z -> (days_in_month y m <= 31)%Z.
Proof.
  intros Hm.
  assert (E : (m = 1 \/ m = 2 \/ m = 3 \/ m = 4 \/ m = 5 \/ m = 6 \/ m = 7 \/ m = 8 \/
               m = 9 \/ m = 10 \/ m = 11 \/ m = 12)%Z) by lia.
  repeat destruct E as [E | E]; subst m; unfold days_in_month;
    cbn -[is_leap]; try destruct (is_leap y); lia.
Qed.

(** Day numbers of the dates of the years 0 to 9999. *)
Lemma days_from_civil_range y m d :
  (0 <= y <= 9999)%Z -> (1 <= m <= 12)%Z -> (1 <= d <= 31)%Z ->
  (-1000000 <= days_from_civil y m d <= 3000000)%Z.
Proof.
  intros Hy Hm Hd. unfold days_from_civil.
  set (y' := if (m <=? 2)%Z then (y - 1)%Z else y).
  assert (Hy' : (-1 <= y' <= 9999)%Z) by (unfold y'; destruct (m <=? 2)%Z; lia).
  set (mp := (if (2 <? m)%Z then m - 3 else m + 9)%Z).
  assert (Hmp : (0 <= mp <= 11)%Z) by (unfold mp; destruct (Z.ltb_spec 2 m); lia).
  clearbody y' mp.
  pose proof (Z.div_mod y' 400 ltac:(lia)). pose proof (Z.mod_pos_bound y' 400 ltac:(lia)).
  set (era := (y' / 400)%Z) in *.
  set (yoe := (y' - era * 400)%Z).
  assert (Hyoe : (0 <= yoe < 400)%Z) by (unfold yoe; lia).
  assert (Hera : (-1 <= era <= 24)%Z) by lia.
  clearbody yoe era.
  pose proof (Z.div_mod yoe 4 ltac:(lia)). pose proof (Z.mod_pos_bound yoe 4 ltac:(lia)).
  pose proof (Z.div_mod yoe 100 ltac:(lia)). pose proof (Z.mod_pos_bound yoe 100 ltac:(lia)).
  pose proof (Z.div_mod (153 * mp + 2) 5 ltac:(lia)).
  pose proof (Z.mod_pos_bound (153 * mp + 2) 5 ltac:(lia)).
  lia.
Qed.

(** The name [generateFilename] gives an entry whose creation date is a
    valid UTC date-time [YYYY-MM-DDTHH:mm:ssZ], read by the engine as the
    ECMAScript specification fixes it, begins with the first ten characters
    of that string ([YYYY-MM-DD]) and a space: the time of day never moves
    such an entry to another day. *)
Theorem generateFilename_date_prefix `{DP : DateParse} (st : state) (e : entry) (s : string)
    (t : Z) (fn : string) (st' : state) :
  creationDate e = Some s -> parse_iso_utc s = Some t -> date_parse s = Some t ->
  generateFilename st e = Ok (fn, st') ->
  exists rest, fn = slice0 10 s ++ " " ++ rest.
Proof.
  intros Hs Hps Hdp H. unfold generateFilename in H. rewrite Hs in H.
  destruct (parse_iso_utc_Some s t Hps) as (y & mo & d & r & Hy & Hmo & Hd & H4 & H7 & Hm & Hdd & Hr & Ht).
  assert (Hdate : iso_date_part (new_Date (Some s)) = Ok (slice0 10 s)).
  { destruct s as [|c0 s]; [discriminate|].
    destruct s as [|c1 s]; [discriminate|].
    destruct s as [|c2 s]; [discriminate|].
    destruct s as [|c3 s]; [discriminate|].
    destruct s as [|c4 s]; [discriminate|].
    destruct s as [|c5 s]; [discriminate|].
    destruct s as [|c6 s]; [discriminate|].
    destruct s as [|c7 s]; [discriminate|].
    destruct s as [|c8 s]; [discriminate|].
    destruct s as [|c9 s]; [discriminate|].
    change (parse_digits_acc 0 (String c0 (String c1 (String c2 (String c3 "")))) = Some y) in Hy.
    change (parse_digits_acc 0 (String c5 (String c6 "")) = Some mo) in Hmo.
    assert (E0 : substring 0 0 s = "") by (destruct s; reflexivity).
    unfold digits_at in Hd. cbn [substring] in Hd. rewrite E0 in Hd.
    change (Ascii.eqb "-" c4 = true) in H4. change (Ascii.eqb "-" c7 = true) in H7.
    apply Ascii.eqb_eq in H4, H7. subst c4 c7.
    pose proof (parse_digits_bounds _ 0%Z _ ltac:(lia) Hy) as Hyb.
    change ((0 * 10 ^ 4 <= y < (0 + 1) * 10 ^ 4)%Z) in Hyb.
    pose proof (days_in_month_le_31 y mo Hm) as H31.
    pose proof (days_from_civil_range y mo d ltac:(lia) Hm ltac:(lia)) as Hrange.
    assert (Hnd : new_Date (Some (String c0 (String c1 (String c2 (String c3 (String "-"
                    (String c5 (String c6 (String "-" (String c8 (String c9 s))))))))))) = Some t).
    { cbn [new_Date]. rewrite Hdp. cbn [time_clip].
      replace (Z.abs t <=? 8640000000000000)%Z with true; [reflexivity|].
      symmetry. apply Z.leb_le. subst t. apply Z.abs_le. lia. }
    rewrite Hnd, Ht. unfold iso_date_part.
    rewrite Z.div_add_l, (Z.div_small r) by lia. rewrite Z.add_0_r.
    rewrite civil_round_trip by lia.
    pose proof (pad_dec_parse _ 0%Z _ "" 0 ltac:(lia) Hy) as Py.
    pose proof (pad_dec_parse _ 0%Z _ "" 0 ltac:(lia) Hmo) as Pm.
    pose proof (pad_dec_parse _ 0%Z _ "" 0 ltac:(lia) Hd) as Pd.
    change (pad_dec 4 y "" = String c0 (String c1 (String c2 (String c3 "")))) in Py.
    change (pad_dec 2 mo "" = String c5 (String c6 "")) in Pm.
    change (pad_dec 2 d "" = String c8 (String c9 "")) in Pd.
    unfold iso_year. replace ((0 <=? y)%Z && (y <=? 9999)%Z) with true
      by (symmetry; apply andb_true_intro; split; apply Z.leb_le; lia).
    rewrite Py, Pm, Pd. unfold slice0. cbn [substring]. rewrite E0. reflexivity. }
  rewrite Hdate in H. cbn [mbind res_bind] in H.
  inv_bind H. inv_bind H. injection H as <- <-.
  assert (Hbase : exists rest, a = slice0 10 s ++ " " ++ rest).
  { destruct (extractTitle (text e)) as [ti|];
      [destruct (negb (String.eqb ti ""))|]; cbn [mbind res_bind] in Ha;
      try (injection Ha as <-; eauto); inv_bind Ha; injection Ha as <-; eauto. }
  destruct Hbase as (rest & ->).
  destruct (decide _).
  - inv_bind Ha0. injection Ha0 as <-. exists (rest ++ " (" ++ a ++ ").md").
    now rewrite !str_app_assoc.
  - injection Ha0 as <-. exists (rest ++ ".md"). now rewrite !str_app_assoc.
Qed.

Lemma generateFilename_date_prefix_witness :
  creationDate morning = Some "2024-01-15T10:00:00Z" /\
  parse_iso_utc "2024-01-15T10:00:00Z" = Some 1705312800000%Z /\
  generateFilename (new_converter false) morning
    = Ok (morning_filename, set_usedFilenames (new_converter false) {[ morning_filename ]}) /\
  exists rest, morning_filename = slice0 10 "2024-01-15T10:00:00Z" ++ " " ++ rest.
Proof.
  assert (H1 : creationDate morning = Some "2024-01-15T10:00:00Z") by reflexivity.
  assert (H2 : parse_iso_utc "2024-01-15T10:00:00Z" = Some 1705312800000%Z)
    by (vm_compute; reflexivity).
  assert (H3 : generateFilename (new_converter false) morning
    = Ok (morning_filename, set_usedFilenames (new_converter false) {[ morning_filename ]}))
    by (vm_compute; reflexivity).
  split; [exact H1|]. split; [exact H2|]. split; [exact H3|].
  exact (generateFilename_date_prefix (DP := parse_iso_utc_engine) _ _ _ _ _ _ H1 H2 H2 H3).
Defined.

(* ------------------------------------------------------------------ *)
(** ** Frontmatter tags and device *)

Lemma map_sanitizeTag_props (ts : list string) :
  List.Forall2 (fun t t' => t' = sanitizeTag t /\ str_all is_tag_char t' = true /\
                            sanitizeTag t' = t') ts (List.map sanitizeTag ts).
Proof.
  induction ts as [|t ts IH]; constructor; [|exact IH].
  split; [reflexivity|]. apply sanitizeTag_charset_idempotent.
Qed.

(** A non-empty tag list reaches the frontmatter as one tag per input tag,
    in order: the tag at each position is [sanitizeTag] of the input tag at
    that position, made only of lowercase letters, digits, underscores and
    hyphens, and left unchanged by sanitizing it again. *)
Theorem buildFrontmatter_tags (e : entry) (ts : list string) :
  tags e = Some ts -> ts <> [] ->
  exists l, fm_tags (buildFrontmatter e) = Some l /\
    List.Forall2 (fun t t' => t' = sanitizeTag t /\ str_all is_tag_char t' = true /\
                              sanitizeTag t' = t') ts l.
Proof.
  intros Ht Hne. unfold buildFrontmatter; cbn [fm_tags]. rewrite Ht.
  destruct ts as [|t ts']; [congruence|].
  exists (List.map sanitizeTag (t :: ts')). split; [reflexivity|].
  apply map_sanitizeTag_props.
Qed.

Definition entry_with_tags : entry :=
  {| uuid := Some dup_id; text := None; creationDate := Some "2024-01-15T10:00:00Z";
     modifiedDate := None; timeZone := None; starred := None; isPinned := None;
     isAllDay := None; tags := Some ["Road Trip"; "!!"]; entry_location := None;
     entry_weather := None; userActivity := None; creationDevice := None;
     creationDeviceType := None; creationDeviceModel := None; creationOSName := None;
     creationOSVersion := None; photos := None; videos := None; audios := None;
     pdfAttachments := None; editingTime := None |}.

Lemma buildFrontmatter_tags_witness :
  fm_tags (buildFrontmatter entry_with_tags) = Some ["road-trip"; ""] /\
  exists l, fm_tags (buildFrontmatter entry_with_tags) = Some l /\
    List.Forall2 (fun t t' => t' = sanitizeTag t /\ str_all is_tag_char t' = true /\
                              sanitizeTag t' = t') ["Road Trip"; "!!"] l.
Proof.
  split; [reflexivity|].
  apply (buildFrontmatter_tags entry_with_tags ["Road Trip"; "!!"]);
    [reflexivity|discriminate].
Defined.

(** The frontmatter gets a device block exactly when the entry has a
    non-empty creation device name or device type; a device model, OS name
    or OS version alone never produces one. *)
Theorem build_device_present (e : entry) :
  build_device e <> None <->
  (str_truthy (creationDevice e) || str_truthy (creationDeviceType e)) = true.
Proof.
  unfold build_device.
  destruct (str_truthy (creationDevice e)) eqn:Hn;
    destruct (str_truthy (creationDeviceType e)) eqn:Ht; cbn -[set_b keep_str];
    split; intros H; try congruence.
  - unfold keep_str at 1. rewrite Hn. destruct (creationDevice e); [discriminate|].
    cbn in Hn. discriminate.
  - unfold keep_str at 1. rewrite Hn. destruct (creationDevice e); [discriminate|].
    cbn in Hn. discriminate.
  - unfold keep_str at 2. rewrite Ht. destruct (creationDeviceType e) eqn:E.
    + rewrite orb_true_r. discriminate.
    + cbn in Ht. discriminate.
Qed.

